(** * kot-mcp-server: the King of Time API client and its MCP tool adapter

    A shallow embedding of [src/kot_mcp/client.py] and
    [src/kot_mcp/server.py].  Python values are an inductive type, the
    process environment is a finite map, and every effect of the program
    (building the HTTP client, sending a request, logging, sleeping,
    decoding a body, closing the client) is an event appended to the trace
    of an explicit world that is threaded through a state-and-exception
    monad. *)

From Stdlib Require Import ZArith String Ascii List DecimalString Lia.
From stdpp Require Import gmap strings.

(** ** The Python runtime that the program relies on *)

Module Py.

(** Values that cross the program: [None], booleans, integers, strings,
    lists and dictionaries.  A dictionary keeps its insertion order, as a
    Python [dict] does. *)
#[warnings="-register-all"]
Inductive PyVal : Type :=
| PNone
| PBool (b : bool)
| PInt (z : Z)
| PStr (s : string)
| PList (items : list PyVal)
| PDict (entries : list (string * PyVal)).

Abbreviation dict := (list (string * PyVal)).

(** [bool(v)]: the truth value that [if v:] tests. *)
Definition truthy (v : PyVal) : bool :=
  match v with
  | PNone => false
  | PBool b => b
  | PInt z => negb (z =? 0)%Z
  | PStr s => negb (String.eqb s "")
  | PList items => match items with [] => false | _ => true end
  | PDict entries => match entries with [] => false | _ => true end
  end.

(** [v is not None]. *)
Definition is_not_None (v : PyVal) : bool :=
  match v with PNone => false | _ => true end.

(** A parameter annotated [str | None]. *)
Definition of_opt (o : option string) : PyVal :=
  match o with Some s => PStr s | None => PNone end.

(** [d[k] = v]: overwrite in place when the key exists, append otherwise. *)
Fixpoint dict_set (d : dict) (k : string) (v : PyVal) : dict :=
  match d with
  | [] => [(k, v)]
  | (k', v') :: rest =>
      if String.eqb k' k then (k, v) :: rest else (k', v') :: dict_set rest k v
  end.

Fixpoint dict_get (d : dict) (k : string) : option PyVal :=
  match d with
  | [] => None
  | (k', v) :: rest => if String.eqb k' k then Some v else dict_get rest k
  end.

Definition dict_keys (d : dict) : list string := map fst d.

(** [str(n)] for an integer: its decimal numeral. *)
Definition str_int (z : Z) : string := NilZero.string_of_int (Z.to_int z).

(** *** [json.dumps(v, ensure_ascii=False, indent=2)] *)

Definition DQUOTE : string := String (ascii_of_N 34) "".

Definition hex_digit (n : N) : ascii :=
  ascii_of_N (if (n <? 10)%N then 48 + n else 87 + n).

(** One character of a string literal: the quote, the backslash and the
    control characters are escaped, everything else is copied. *)
Definition escape_char (c : ascii) : string :=
  let n := N_of_ascii c in
  if (n =? 34)%N then "\" +:+ DQUOTE
  else if (n =? 92)%N then "\\"
  else if (n =? 8)%N then "\b"
  else if (n =? 12)%N then "\f"
  else if (n =? 10)%N then "\n"
  else if (n =? 13)%N then "\r"
  else if (n =? 9)%N then "\t"
  else if (n <? 32)%N then
    "\u00" +:+ String (hex_digit (n / 16)) (String (hex_digit (n mod 16)) "")
  else String c "".

Fixpoint escape_chars (s : string) : string :=
  match s with
  | EmptyString => ""
  | String c rest => escape_char c +:+ escape_chars rest
  end.

Definition encode_basestring (s : string) : string :=
  DQUOTE +:+ escape_chars s +:+ DQUOTE.

Definition LF : string := String (ascii_of_N 10) "".

Fixpoint spaces (n : nat) : string :=
  match n with O => "" | S n' => " " +:+ spaces n' end.

(** A line break followed by the indentation of nesting depth [level]. *)
Definition newline_indent (level : nat) : string := LF +:+ spaces (2 * level).

Fixpoint join (sep : string) (parts : list string) : string :=
  match parts with
  | [] => ""
  | [p] => p
  | p :: rest => p +:+ sep +:+ join sep rest
  end.

Fixpoint dumps_at (level : nat) (v : PyVal) : string :=
  match v with
  | PNone => "null"
  | PBool true => "true"
  | PBool false => "false"
  | PInt z => str_int z
  | PStr s => encode_basestring s
  | PList [] => "[]"
  | PList items =>
      "[" +:+ newline_indent (S level)
      +:+ join ("," +:+ newline_indent (S level))
               (map (fun item => dumps_at (S level) item) items)
      +:+ newline_indent level +:+ "]"
  | PDict [] => "{}"
  | PDict entries =>
      "{" +:+ newline_indent (S level)
      +:+ join ("," +:+ newline_indent (S level))
               (map (fun kv => encode_basestring (fst kv) +:+ ": "
                               +:+ dumps_at (S level) (snd kv)) entries)
      +:+ newline_indent level +:+ "}"
  end.

Definition json_dumps (v : PyVal) : string := dumps_at 0 v.

(** *** Exceptions and the monad of effects *)

(** The exceptions that can travel through the program: the client's typed
    API error, the configuration error of the tool adapter, any other
    fault of the HTTP library (a transport failure, a header that cannot
    be encoded), identified by the name of its class, and the exception
    [resp.json()] raises for a body it cannot decode, whatever its class
    ([json.JSONDecodeError] for a body that is not JSON,
    [UnicodeDecodeError] for one that is not UTF-8). *)
Inductive Exc : Type :=
| KotApiError (status_code : Z) (message : string)
| RuntimeError (msg : string)
| OtherError (name : string)
| DecodingFailed.

Inductive Outcome (A : Type) : Type :=
| Return (a : A)
| Raise (e : Exc).
Arguments Return {A} a.
Arguments Raise {A} e.

(** *** The HTTP library *)

(** What [AsyncClient.request] is called with. *)
Record Request : Type := mkRequest {
  method : string;
  path : string;
  params : option dict;
  json_body : option dict
}.

(** What it returns: the status code, the body text ([resp.text]) and the
    value [resp.json()] decodes from the body, [None] when decoding
    raises. *)
Record Response : Type := mkResponse {
  status_code : Z;
  text : string;
  json : option PyVal
}.

Inductive Reply : Type :=
| Answer (resp : Response)
| TransportFault (name : string).

(** The HTTP client object; the timeout is in seconds. *)
Record AsyncClient : Type := mkAsyncClient {
  base_url : string;
  headers : list (string * string);
  timeout : Z
}.

(** *** The world *)

Inductive Event : Type :=
| EvOpen (c : AsyncClient)
| EvRequest (req : Request)
| EvWarning (msg : string)
| EvSleep (seconds : Z)
| EvJson
| EvClose.

(** The process environment, the upstream API (which answers the [n]-th
    request of the run), the number of requests sent so far and the
    trace of effects, oldest first. *)
Record World : Type := mkWorld {
  environ : gmap string string;
  upstream : nat -> Request -> Reply;
  sent : nat;
  trace : list Event
}.

Definition M (A : Type) : Type := World -> Outcome A * World.

Definition ret {A} (a : A) : M A := fun w => (Return a, w).

Definition raise {A} (e : Exc) : M A := fun w => (Raise e, w).

Definition bind {A B} (m : M A) (k : A -> M B) : M B :=
  fun w =>
    match m w with
    | (Return a, w') => k a w'
    | (Raise e, w') => (Raise e, w')
    end.

Declare Scope py_scope.
Delimit Scope py_scope with py.
Notation "x <- m ;; k" := (bind m (fun x => k))
  (at level 100, m at next level, right associativity) : py_scope.
Notation "m ;; k" := (bind m (fun _ => k))
  (at level 100, right associativity) : py_scope.

(** [try: body / except KotApiError as e: handler e]. *)
Definition try_except_KotApiError {A} (body : M A)
    (handler : Z -> string -> M A) : M A :=
  fun w =>
    match body w with
    | (Raise (KotApiError status message), w') => handler status message w'
    | r => r
    end.

(** [try: body / finally: cleanup]. *)
Definition try_finally {A} (body : M A) (cleanup : M unit) : M A :=
  fun w =>
    match body w with
    | (o, w') =>
        match cleanup w' with
        | (Return _, w'') => (o, w'')
        | (Raise e, w'') => (Raise e, w'')
        end
    end.

Definition emit (e : Event) : M unit :=
  fun w => (Return tt, mkWorld (environ w) (upstream w) (sent w) (trace w ++ [e])).

(** [os.environ.get(key, default)]. *)
Definition os_environ_get (key default : string) : M string :=
  fun w => (Return (match environ w !! key with Some v => v | None => default end), w).

(** The text holds ASCII characters only. *)
Fixpoint ascii_only (s : string) : bool :=
  match s with
  | EmptyString => true
  | String c rest => (N_of_ascii c <? 128)%N && ascii_only rest
  end.

(** [httpx.AsyncClient(base_url=..., headers=..., timeout=...)]: the
    constructor encodes the names and values of the headers as ASCII and
    raises [UnicodeEncodeError], building nothing, when one of them cannot
    be encoded. *)
Definition httpx_AsyncClient (url : string) (hdrs : list (string * string))
    (seconds : Z) : M AsyncClient :=
  if forallb (fun h => ascii_only (fst h) && ascii_only (snd h)) hdrs then
    let c := mkAsyncClient url hdrs seconds in
    bind (emit (EvOpen c)) (fun _ => ret c)
  else raise (OtherError "UnicodeEncodeError").

(** [await client.request(method, path, params=..., json=...)]: the request
    goes out, then the upstream's reply comes back or the transport
    raises. *)
Definition AsyncClient_request (c : AsyncClient) (req : Request) : M Response :=
  fun w =>
    let w' := mkWorld (environ w) (upstream w) (S (sent w)) (trace w ++ [EvRequest req]) in
    match upstream w (sent w) req with
    | Answer resp => (Return resp, w')
    | TransportFault name => (Raise (OtherError name), w')
    end.

Definition AsyncClient_aclose (c : AsyncClient) : M unit := emit EvClose.

(** [resp.json()]: the decoded body, or the decoder's exception. *)
Definition Response_json (resp : Response) : M PyVal :=
  bind (emit EvJson) (fun _ =>
    match json resp with
    | Some v => ret v
    | None => raise DecodingFailed
    end).

Definition logger_warning (msg : string) : M unit := emit (EvWarning msg).

Definition asyncio_sleep (seconds : Z) : M unit := emit (EvSleep seconds).

(** [range(n)]. *)
Definition range (n : Z) : list Z := map Z.of_nat (seq 0 (Z.to_nat n)).

End Py.

(** ** [kot_mcp/client.py] *)

Module Client.
Import Py.
Local Open Scope py_scope.

Definition BASE_URL : string := "https://api.kingtime.jp/v1.0".

(** [str(e)] for [e = KotApiError(status_code, message)]: the text handed
    to [Exception.__init__]. *)
Definition KotApiError_str (status : Z) (message : string) : string :=
  "[" +:+ str_int status +:+ "] " +:+ message.

Record KingOfTimeClient : Type := mkClient {
  _token : string;
  _client : AsyncClient
}.

Definition __init__ (access_token : string) : M KingOfTimeClient :=
  c <- httpx_AsyncClient BASE_URL
         [("Authorization", "Bearer " +:+ access_token);
          ("Content-Type", "application/json")]
         30 ;;
  ret (mkClient access_token c).

Definition close (self : KingOfTimeClient) : M unit :=
  AsyncClient_aclose (_client self).

(** The body of the loop [for attempt in range(max_retries)] of [_request],
    followed by the [raise] after the loop. *)
Fixpoint _request_loop (self : KingOfTimeClient) (req : Request)
    (attempts : list Z) : M PyVal :=
  match attempts with
  | [] => raise (KotApiError 429 "Rate limit exceeded after retries")
  | attempt :: rest =>
      resp <- AsyncClient_request (_client self) req ;;
      if (status_code resp =? 429)%Z then
        let wait := (2 ^ attempt)%Z in
        logger_warning ("Rate limited (429). Retry in " +:+ str_int wait +:+ "s...") ;;
        asyncio_sleep wait ;;
        _request_loop self req rest
      else if (status_code resp >=? 400)%Z then
        let body := text resp in
        raise (KotApiError (status_code resp) body)
      else if (status_code resp =? 204)%Z then
        ret PNone
      else
        Response_json resp
  end.

Definition _request (self : KingOfTimeClient) (method path : string)
    (params json_body : option dict) (max_retries : Z) : M PyVal :=
  _request_loop self (mkRequest method path params json_body) (range max_retries).

(** The default of the keyword argument [max_retries]. *)
Definition max_retries_default : Z := 3.

(** [filtered or None]. *)
Definition or_None (d : dict) : option dict :=
  match d with [] => None | _ => Some d end.

Definition _get (self : KingOfTimeClient) (path : string) (params : dict) : M PyVal :=
  let filtered := List.filter (fun kv => is_not_None (snd kv)) params in
  _request self "GET" path (or_None filtered) None max_retries_default.

Definition _post (self : KingOfTimeClient) (path : string) (body : dict) : M PyVal :=
  _request self "POST" path None (Some body) max_retries_default.

Definition _put (self : KingOfTimeClient) (path : string) (body : dict) : M PyVal :=
  _request self "PUT" path None (Some body) max_retries_default.

Definition _delete (self : KingOfTimeClient) (path : string) : M PyVal :=
  _request self "DELETE" path None None max_retries_default.

Definition get_company (self : KingOfTimeClient) : M PyVal :=
  _get self "/company" [].

Definition list_administrators (self : KingOfTimeClient) : M PyVal :=
  _get self "/administrators" [].

Definition list_employees (self : KingOfTimeClient)
    (division_code : option string) : M PyVal :=
  _get self "/employees" [("divisionCode", of_opt division_code)].

Definition get_employee (self : KingOfTimeClient) (employee_code : string) : M PyVal :=
  _get self ("/employees/" +:+ employee_code) [].

Definition list_divisions (self : KingOfTimeClient) : M PyVal :=
  _get self "/divisions" [].

Definition list_working_types (self : KingOfTimeClient) : M PyVal :=
  _get self "/working-types" [].

Definition list_employee_groups (self : KingOfTimeClient) : M PyVal :=
  _get self "/employee-groups" [].

Definition get_daily_workings (self : KingOfTimeClient)
    (date start_date end_date division_code : option string) : M PyVal :=
  _get self "/daily-workings"
    [("date", of_opt date);
     ("startDate", of_opt start_date);
     ("endDate", of_opt end_date);
     ("divisionCode", of_opt division_code)].

Definition get_monthly_workings (self : KingOfTimeClient) (date : string)
    (division_code : option string) : M PyVal :=
  _get self ("/monthly-workings/" +:+ date)
    [("divisionCode", of_opt division_code)].

Definition get_yearly_holidays (self : KingOfTimeClient) (type_code : string)
    (year : Z) : M PyVal :=
  _get self ("/yearly-workings/holidays/" +:+ type_code +:+ "/" +:+ str_int year) [].

Definition record_time (self : KingOfTimeClient) (employee_key : string)
    (record_type : Z) (date time : option string) : M PyVal :=
  let body := [("type", PInt record_type)] in
  let body := if truthy (of_opt date) then dict_set body "date" (of_opt date) else body in
  let body := if truthy (of_opt time) then dict_set body "time" (of_opt time) else body in
  _post self ("/daily-workings/timerecord/" +:+ employee_key) body.

Definition get_schedule_requests (self : KingOfTimeClient) (date : string) : M PyVal :=
  _get self ("/schedule-requests/" +:+ date) [].

Definition approve_request (self : KingOfTimeClient) (request_id : string) : M PyVal :=
  _put self ("/requests/" +:+ request_id) [("action", PStr "approve")].

Definition reject_request (self : KingOfTimeClient) (request_id reason : string) : M PyVal :=
  let body := [("action", PStr "reject")] in
  let body := if truthy (PStr reason) then dict_set body "reason" (PStr reason) else body in
  _put self ("/requests/" +:+ request_id) body.

Definition check_token (self : KingOfTimeClient) : M PyVal :=
  _get self ("/tokens/" +:+ _token self +:+ "/available") [].

End Client.

(** ** [kot_mcp/server.py] *)

Module Server.
Import Py.
Local Open Scope py_scope.

Definition TOKEN_UNSET : string :=
  "KOT_ACCESS_TOKEN が未設定です。"
  +:+ "King of Time 管理画面 → 設定 → 外部サービス連携 → WebAPI で取得してください。".

Definition _get_client : M Client.KingOfTimeClient :=
  token <- os_environ_get "KOT_ACCESS_TOKEN" "" ;;
  if negb (truthy (PStr token)) then raise (RuntimeError TOKEN_UNSET)
  else Client.__init__ token.

Definition _fmt (data : PyVal) : string := json_dumps data.

(** The [except KotApiError as e] clause shared by every tool:
    [return f"エラー: {e}"]. *)
Definition on_KotApiError (status : Z) (message : string) : M string :=
  ret ("エラー: " +:+ Client.KotApiError_str status message).

Definition get_company : M string :=
  client <- _get_client ;;
  try_finally
    (try_except_KotApiError
       (result <- Client.get_company client ;; ret (_fmt result))
       on_KotApiError)
    (Client.close client).

Definition list_administrators : M string :=
  client <- _get_client ;;
  try_finally
    (try_except_KotApiError
       (result <- Client.list_administrators client ;; ret (_fmt result))
       on_KotApiError)
    (Client.close client).

Definition list_employees (division_code : option string) : M string :=
  client <- _get_client ;;
  try_finally
    (try_except_KotApiError
       (result <- Client.list_employees client division_code ;; ret (_fmt result))
       on_KotApiError)
    (Client.close client).

Definition get_employee (employee_code : string) : M string :=
  client <- _get_client ;;
  try_finally
    (try_except_KotApiError
       (result <- Client.get_employee client employee_code ;; ret (_fmt result))
       on_KotApiError)
    (Client.close client).

Definition list_divisions : M string :=
  client <- _get_client ;;
  try_finally
    (try_except_KotApiError
       (result <- Client.list_divisions client ;; ret (_fmt result))
       on_KotApiError)
    (Client.close client).

Definition list_working_types : M string :=
  client <- _get_client ;;
  try_finally
    (try_except_KotApiError
       (result <- Client.list_working_types client ;; ret (_fmt result))
       on_KotApiError)
    (Client.close client).

Definition list_employee_groups : M string :=
  client <- _get_client ;;
  try_finally
    (try_except_KotApiError
       (result <- Client.list_employee_groups client ;; ret (_fmt result))
       on_KotApiError)
    (Client.close client).

Definition get_daily_workings (date start_date end_date division_code : option string)
    : M string :=
  client <- _get_client ;;
  try_finally
    (try_except_KotApiError
       (result <- Client.get_daily_workings client date start_date end_date
                    division_code ;;
        ret (_fmt result))
       on_KotApiError)
    (Client.close client).

Definition get_monthly_workings (date : string) (division_code : option string)
    : M string :=
  client <- _get_client ;;
  try_finally
    (try_except_KotApiError
       (result <- Client.get_monthly_workings client date division_code ;;
        ret (_fmt result))
       on_KotApiError)
    (Client.close client).

Definition get_yearly_holidays (type_code : string) (year : Z) : M string :=
  client <- _get_client ;;
  try_finally
    (try_except_KotApiError
       (result <- Client.get_yearly_holidays client type_code year ;;
        ret (_fmt result))
       on_KotApiError)
    (Client.close client).

Definition record_time (employee_key : string) (record_type : Z)
    (date time : option string) : M string :=
  client <- _get_client ;;
  try_finally
    (try_except_KotApiError
       (result <- Client.record_time client employee_key record_type date time ;;
        ret (_fmt result))
       on_KotApiError)
    (Client.close client).

Definition get_schedule_requests (date : string) : M string :=
  client <- _get_client ;;
  try_finally
    (try_except_KotApiError
       (result <- Client.get_schedule_requests client date ;; ret (_fmt result))
       on_KotApiError)
    (Client.close client).

Definition approve_request (request_id : string) : M string :=
  client <- _get_client ;;
  try_finally
    (try_except_KotApiError
       (result <- Client.approve_request client request_id ;;
        ret (if truthy result then _fmt result else "承認しました"))
       on_KotApiError)
    (Client.close client).

Definition reject_request (request_id reason : string) : M string :=
  client <- _get_client ;;
  try_finally
    (try_except_KotApiError
       (result <- Client.reject_request client request_id reason ;;
        ret (if truthy result then _fmt result else "棄却しました"))
       on_KotApiError)
    (Client.close client).

Definition check_token : M string :=
  client <- _get_client ;;
  try_finally
    (try_except_KotApiError
       (result <- Client.check_token client ;; ret (_fmt result))
       on_KotApiError)
    (Client.close client).

(** The tools registered with [@mcp.tool()], each with its arguments. *)
Inductive ToolCall : Type :=
| call_get_company
| call_list_administrators
| call_list_employees (division_code : option string)
| call_get_employee (employee_code : string)
| call_list_divisions
| call_list_working_types
| call_list_employee_groups
| call_get_daily_workings (date start_date end_date division_code : option string)
| call_get_monthly_workings (date : string) (division_code : option string)
| call_get_yearly_holidays (type_code : string) (year : Z)
| call_record_time (employee_key : string) (record_type : Z) (date time : option string)
| call_get_schedule_requests (date : string)
| call_approve_request (request_id : string)
| call_reject_request (request_id reason : string)
| call_check_token.

(** Invoking a registered tool runs the function of that name. *)
Definition invoke (t : ToolCall) : M string :=
  match t with
  | call_get_company => get_company
  | call_list_administrators => list_administrators
  | call_list_employees division_code => list_employees division_code
  | call_get_employee employee_code => get_employee employee_code
  | call_list_divisions => list_divisions
  | call_list_working_types => list_working_types
  | call_list_employee_groups => list_employee_groups
  | call_get_daily_workings date start_date end_date division_code =>
      get_daily_workings date start_date end_date division_code
  | call_get_monthly_workings date division_code =>
      get_monthly_workings date division_code
  | call_get_yearly_holidays type_code year => get_yearly_holidays type_code year
  | call_record_time employee_key record_type date time =>
      record_time employee_key record_type date time
  | call_get_schedule_requests date => get_schedule_requests date
  | call_approve_request request_id => approve_request request_id
  | call_reject_request request_id reason => reject_request request_id reason
  | call_check_token => check_token
  end.

End Server.

(** ** Vocabulary of the statements *)

Module Spec.
Import Py.

(** The world [w] after [k] more requests and the further events [evs]. *)
Definition advance (w : World) (k : nat) (evs : list Event) : World :=
  mkWorld (environ w) (upstream w) (sent w + k) (trace w ++ evs).

(** The three effects of one rate-limited attempt: the request, the
    warning and the sleep of [2 ^ attempt] seconds. *)
Definition backoff (req : Request) (attempt : Z) : list Event :=
  [EvRequest req;
   EvWarning ("Rate limited (429). Retry in " +:+ str_int (2 ^ attempt) +:+ "s...");
   EvSleep (2 ^ attempt)].

(** The upstream answers the [n]-th request of the run, if it is [req],
    with status 429. *)
Definition answers_429 (w : World) (req : Request) (n : nat) : bool :=
  match upstream w n req with
  | Answer resp => (status_code resp =? 429)%Z
  | TransportFault _ => false
  end.

(** The upstream answers the next [k] sendings of [req] with status 429. *)
Definition throttled (w : World) (req : Request) (k : nat) : bool :=
  forallb (answers_429 w req) (seq (sent w) k).

Fixpoint requests_of (evs : list Event) : list Request :=
  match evs with
  | [] => []
  | EvRequest req :: rest => req :: requests_of rest
  | _ :: rest => requests_of rest
  end.

Fixpoint sleeps_of (evs : list Event) : list Z :=
  match evs with
  | [] => []
  | EvSleep s :: rest => s :: sleeps_of rest
  | _ :: rest => sleeps_of rest
  end.

(** How many times a body was decoded with [resp.json()]. *)
Fixpoint json_calls (evs : list Event) : nat :=
  match evs with
  | [] => 0
  | EvJson :: rest => S (json_calls rest)
  | _ :: rest => json_calls rest
  end.

(** The events a run from [w] to [w'] added to the trace. *)
Definition events_since (w w' : World) : list Event :=
  skipn (length (trace w)) (trace w').

(** The requests that went out between [w] and [w']. *)
Definition issued (w w' : World) : list Request := requests_of (events_since w w').

(** The retries of a run: the requests that went out after the first. *)
Definition retries (w w' : World) : nat := (length (issued w w') - 1)%nat.

(** Running [m] from [w] sends [req], at least once and at most three
    times (the default budget), and sends nothing else. *)
Definition sends_only {A} (m : M A) (w : World) (req : Request) : Prop :=
  exists k, (1 <= k <= 3)%nat /\ issued w (snd (m w)) = repeat req k.

(** The entry a supplied optional argument contributes to a mapping. *)
Definition supplied (o : option string) : option PyVal :=
  match o with Some s => Some (PStr s) | None => None end.

(** A client holding [token], as [KingOfTimeClient(token)] builds it. *)
Definition client_of (token : string) : Client.KingOfTimeClient :=
  Client.mkClient token
    (mkAsyncClient Client.BASE_URL
       [("Authorization", "Bearer " +:+ token); ("Content-Type", "application/json")]
       30).

(** An optional string argument that is supplied and not empty. *)
Definition nonempty (o : option string) : bool :=
  match o with
  | Some s => negb (String.eqb s "")
  | None => false
  end.

(** The client method each tool calls inside its [try]. *)
Definition client_call (t : Server.ToolCall) (c : Client.KingOfTimeClient) : M PyVal :=
  match t with
  | Server.call_get_company => Client.get_company c
  | Server.call_list_administrators => Client.list_administrators c
  | Server.call_list_employees division_code => Client.list_employees c division_code
  | Server.call_get_employee employee_code => Client.get_employee c employee_code
  | Server.call_list_divisions => Client.list_divisions c
  | Server.call_list_working_types => Client.list_working_types c
  | Server.call_list_employee_groups => Client.list_employee_groups c
  | Server.call_get_daily_workings date start_date end_date division_code =>
      Client.get_daily_workings c date start_date end_date division_code
  | Server.call_get_monthly_workings date division_code =>
      Client.get_monthly_workings c date division_code
  | Server.call_get_yearly_holidays type_code year =>
      Client.get_yearly_holidays c type_code year
  | Server.call_record_time employee_key record_type date time =>
      Client.record_time c employee_key record_type date time
  | Server.call_get_schedule_requests date => Client.get_schedule_requests c date
  | Server.call_approve_request request_id => Client.approve_request c request_id
  | Server.call_reject_request request_id reason =>
      Client.reject_request c request_id reason
  | Server.call_check_token => Client.check_token c
  end.

(** The text each tool returns for the result [v] of that call. *)
Definition rendered (t : Server.ToolCall) (v : PyVal) : string :=
  match t with
  | Server.call_approve_request _ =>
      if truthy v then Server._fmt v else "承認しました"
  | Server.call_reject_request _ _ =>
      if truthy v then Server._fmt v else "棄却しました"
  | _ => Server._fmt v
  end.

(** The text a tool returns for [KotApiError(status, message)]. *)
Definition error_text (status : Z) (message : string) : string :=
  "エラー: [" +:+ str_int status +:+ "] " +:+ message.

(** The world [w] with one more event and no more request. *)
Definition note (w : World) (e : Event) : World :=
  mkWorld (environ w) (upstream w) (sent w) (trace w ++ [e]).

(** The world after the client was closed. *)
Definition closed (w : World) : World := note w EvClose.

(** The world after [KingOfTimeClient(token)] was built. *)
Definition opened (w : World) (token : string) : World :=
  note w (EvOpen (Client._client (client_of token))).

(** What [resp.json()] evaluates to. *)
Definition decoded (resp : Response) : Outcome PyVal :=
  match json resp with
  | Some v => Return v
  | None => Raise DecodingFailed
  end.

(** The query mapping of [req] has an entry for [key]. *)
Definition query_has (req : Request) (key : string) : bool :=
  match params req with
  | Some q => match dict_get q key with Some _ => true | None => false end
  | None => false
  end.

(** The value the query mapping of [req] holds for [key]. *)
Definition query_value (req : Request) (key : string) : option PyVal :=
  match params req with
  | Some q => dict_get q key
  | None => None
  end.

(** The JSON body of [req] has an entry for [key]. *)
Definition body_has (req : Request) (key : string) : bool :=
  match json_body req with
  | Some b => match dict_get b key with Some _ => true | None => false end
  | None => false
  end.

(** The text contains a line break. *)
Fixpoint multiline (s : string) : bool :=
  match s with
  | EmptyString => false
  | String c rest => (N_of_ascii c =? 10)%N || multiline rest
  end.

(** The environment in which only the access token is set. *)
Definition env_with_token (token : string) : gmap string string :=
  <["KOT_ACCESS_TOKEN" := token]> ∅.

(** An upstream that gives the same answer to every request. *)
Definition always (resp : Response) : nat -> Request -> Reply :=
  fun _ _ => Answer resp.

(** An upstream that answers from a script, one reply per request, and
    keeps giving [last] once the script is used up. *)
Definition scripted (script : list Response) (last : Response)
    : nat -> Request -> Reply :=
  fun n _ => Answer (nth n script last).

(** A fresh run: nothing sent, nothing traced. *)
Definition start (env : gmap string string) (up : nat -> Request -> Reply) : World :=
  mkWorld env up 0 [].

(** The three ways a run of the loop can end after its rate-limited
    attempts: with no further request (the budget is spent), with a
    request whose reply ends the run, or with such a request followed by
    the decoding of its body. *)
Definition endings (req : Request) : list (list Event) :=
  [[]; [EvRequest req]; [EvRequest req; EvJson]].

(** The seconds slept in all. *)
Definition total (seconds : list Z) : Z := fold_right Z.add 0%Z seconds.

(** The events that build or close an HTTP client. *)
Fixpoint lifecycle_of (evs : list Event) : list Event :=
  match evs with
  | [] => []
  | EvOpen c :: rest => EvOpen c :: lifecycle_of rest
  | EvClose :: rest => EvClose :: lifecycle_of rest
  | _ :: rest => lifecycle_of rest
  end.

(** The HTTP method of the endpoint behind each tool. *)
Definition tool_method (t : Server.ToolCall) : string :=
  match t with
  | Server.call_record_time _ _ _ _ => "POST"
  | Server.call_approve_request _ | Server.call_reject_request _ _ => "PUT"
  | _ => "GET"
  end.


(** The body entry of an optional string argument: present only when the
    argument is supplied and not empty. *)
Definition entry (key : string) (o : option string) : dict :=
  match o with
  | Some s => if String.eqb s "" then [] else [(key, PStr s)]
  | None => []
  end.



(** The upstream fails the [n]-th request of the run, if it is [req], with
    a transport fault of class [name]. *)
Definition fails_at (w : World) (req : Request) (n : nat) (name : string) : Prop :=
  upstream w n req = TransportFault name.

(** A character that a JSON string shows as it is: not a control
    character, not the quote and not the backslash. *)
Definition plain_char (c : ascii) : bool :=
  let n := N_of_ascii c in
  negb (n <? 32)%N && negb (n =? 34)%N && negb (n =? 92)%N.

Fixpoint plain (s : string) : bool :=
  match s with
  | EmptyString => true
  | String c rest => plain_char c && plain rest
  end.

End Spec.

(** ** Properties of the retrying core *)

Import Py Spec.

Lemma advance_0 w : advance w 0 [] = w.
Proof.
  destruct w as [e u s t]. unfold advance. simpl.
  rewrite Nat.add_0_r, app_nil_r. reflexivity.
Qed.

Lemma advance_advance w k evs k' evs' :
  advance (advance w k evs) k' evs' = advance w (k + k') (evs ++ evs').
Proof.
  unfold advance. simpl. rewrite Nat.add_assoc, app_assoc. reflexivity.
Qed.

Lemma events_since_advance w k evs : events_since w (advance w k evs) = evs.
Proof.
  unfold events_since, advance. simpl.
  rewrite skipn_app, skipn_all, Nat.sub_diag. reflexivity.
Qed.

Lemma requests_of_app evs evs' :
  requests_of (evs ++ evs') = requests_of evs ++ requests_of evs'.
Proof.
  induction evs as [|e evs IH]; simpl; [reflexivity|].
  destruct e; simpl; rewrite IH; reflexivity.
Qed.


Lemma requests_of_backoffs req attempts :
  requests_of (flat_map (backoff req) attempts) = repeat req (length attempts).
Proof.
  induction attempts as [|a attempts IH]; simpl; [reflexivity|].
  rewrite IH. reflexivity.
Qed.

Lemma sleeps_of_backoffs req attempts :
  sleeps_of (flat_map (backoff req) attempts) = map (fun a => 2 ^ a)%Z attempts.
Proof.
  induction attempts as [|a attempts IH]; simpl; [reflexivity|].
  rewrite IH. reflexivity.
Qed.

Lemma throttled_S w req k attempt :
  throttled w req (S k) = true ->
  (exists resp, upstream w (sent w) req = Answer resp /\ status_code resp = 429%Z)
  /\ throttled (advance w 1 (backoff req attempt)) req k = true.
Proof.
  unfold throttled. simpl. intros H. apply andb_prop in H as [H0 Hk]. split.
  - unfold answers_429 in H0. destruct (upstream w (sent w) req) as [resp|]; [|discriminate].
    exists resp. split; [reflexivity|]. apply Z.eqb_eq. exact H0.
  - replace (sent w + 1)%nat with (S (sent w)) by lia. exact Hk.
Qed.

(** One rate-limited attempt: the loop sends, warns, sleeps and goes on
    with the remaining attempts. *)
Lemma loop_step_429 self req attempt rest w resp :
  upstream w (sent w) req = Answer resp ->
  status_code resp = 429%Z ->
  Client._request_loop self req (attempt :: rest) w =
  Client._request_loop self req rest (advance w 1 (backoff req attempt)).
Proof.
  intros Hup Hst. simpl. unfold bind at 1. unfold AsyncClient_request.
  rewrite Hup, Hst. simpl.
  unfold bind, logger_warning, asyncio_sleep, emit. simpl.
  f_equal. unfold advance, backoff. simpl.
  rewrite <- !app_assoc. simpl.
  replace (sent w + 1)%nat with (S (sent w)) by lia. reflexivity.
Qed.

(** As long as the upstream keeps answering 429, the loop consumes its
    attempts one by one, each leaving its three effects. *)
Lemma loop_throttled self req attempts rest :
  forall w,
    throttled w req (length attempts) = true ->
    Client._request_loop self req (attempts ++ rest) w =
    Client._request_loop self req rest
      (advance w (length attempts) (flat_map (backoff req) attempts)).
Proof.
  induction attempts as [|a attempts IH]; intros w H.
  - simpl. rewrite advance_0. reflexivity.
  - destruct (throttled_S w req (length attempts) a H) as [[r [Hr Hs]] Ht].
    change ((a :: attempts) ++ rest) with (a :: (attempts ++ rest)).
    rewrite (loop_step_429 self req a (attempts ++ rest) w r Hr Hs).
    rewrite IH by exact Ht.
    rewrite advance_advance. reflexivity.
Qed.

Lemma range_split (n : Z) (k : nat) :
  (Z.of_nat k < n)%Z ->
  range n = range (Z.of_nat k) ++ Z.of_nat k :: map Z.of_nat (seq (S k) (Z.to_nat n - S k)).
Proof.
  intros H. unfold range. rewrite Nat2Z.id.
  replace (Z.to_nat n) with (k + S (Z.to_nat n - S k))%nat at 1 by lia.
  rewrite seq_app, map_app. simpl. reflexivity.
Qed.

Lemma length_range (n : Z) : length (range n) = Z.to_nat n.
Proof. unfold range. rewrite length_map, length_seq. reflexivity. Qed.

(** The last step of the loop: an answer other than 429 ends it. *)
Lemma loop_step_final self req attempt rest w resp :
  upstream w (sent w) req = Answer resp ->
  status_code resp <> 429%Z ->
  Client._request_loop self req (attempt :: rest) w =
  (if (status_code resp >=? 400)%Z then
     (Raise (KotApiError (status_code resp) (text resp)), advance w 1 [EvRequest req])
   else if (status_code resp =? 204)%Z then
     (Return PNone, advance w 1 [EvRequest req])
   else (decoded resp, advance w 1 [EvRequest req; EvJson])).
Proof.
  intros Hup Hst. simpl. unfold bind at 1. unfold AsyncClient_request.
  rewrite Hup. apply Z.eqb_neq in Hst. rewrite Hst.
  replace (S (sent w)) with (sent w + 1)%nat by lia.
  destruct (status_code resp >=? 400)%Z; [reflexivity|].
  destruct (status_code resp =? 204)%Z; [reflexivity|].
  unfold Response_json, bind, emit, decoded, advance. simpl.
  rewrite <- app_assoc. simpl.
  destruct (json resp); reflexivity.
Qed.

(** The whole run of [_request] when the first [k] attempts are answered
    with 429 and attempt [k], still within the budget, with [resp]. *)
Lemma request_after_throttling self method path params json_body max_retries w k resp :
  let req := mkRequest method path params json_body in
  (Z.of_nat k < max_retries)%Z ->
  throttled w req k = true ->
  upstream w (sent w + k) req = Answer resp ->
  status_code resp <> 429%Z ->
  Client._request self method path params json_body max_retries w =
  let before := flat_map (backoff req) (range (Z.of_nat k)) in
  (if (status_code resp >=? 400)%Z then
     (Raise (KotApiError (status_code resp) (text resp)),
      advance w (S k) (before ++ [EvRequest req]))
   else if (status_code resp =? 204)%Z then
     (Return PNone, advance w (S k) (before ++ [EvRequest req]))
   else (decoded resp, advance w (S k) (before ++ [EvRequest req; EvJson]))).
Proof.
  intros req Hk Ht Hup Hst. unfold Client._request. fold req.
  rewrite (range_split max_retries k Hk).
  rewrite loop_throttled by (rewrite length_range, Nat2Z.id; exact Ht).
  rewrite length_range, Nat2Z.id.
  rewrite (loop_step_final self req _ _ _ resp) by (simpl; assumption).
  cbv zeta. rewrite !advance_advance.
  replace (k + 1)%nat with (S k) by lia.
  destruct (status_code resp >=? 400)%Z; [reflexivity|].
  destruct (status_code resp =? 204)%Z; reflexivity.
Qed.

(** The whole run of [_request] when every attempt of the budget is
    answered with 429. *)
Lemma request_throttled self method path params json_body max_retries w :
  let req := mkRequest method path params json_body in
  throttled w req (Z.to_nat max_retries) = true ->
  Client._request self method path params json_body max_retries w =
  (Raise (KotApiError 429 "Rate limit exceeded after retries"),
   advance w (Z.to_nat max_retries) (flat_map (backoff req) (range max_retries))).
Proof.
  intros req Ht. unfold Client._request. fold req.
  rewrite <- (app_nil_r (range max_retries)) at 1.
  rewrite loop_throttled by (rewrite length_range; exact Ht).
  rewrite length_range. reflexivity.
Qed.

Lemma json_calls_app evs evs' :
  json_calls (evs ++ evs') = (json_calls evs + json_calls evs')%nat.
Proof.
  induction evs as [|e evs IH]; simpl; [reflexivity|].
  destruct e; simpl; rewrite IH; reflexivity.
Qed.

Lemma json_calls_backoffs req attempts :
  json_calls (flat_map (backoff req) attempts) = 0%nat.
Proof. induction attempts as [|a attempts IH]; simpl; [reflexivity|exact IH]. Qed.

Lemma range_last (n : Z) :
  (1 <= n)%Z -> range n = range (n - 1) ++ [(n - 1)%Z].
Proof.
  intros H. rewrite (range_split n (Z.to_nat (n - 1))) by lia.
  replace (Z.of_nat (Z.to_nat (n - 1))) with (n - 1)%Z by lia.
  replace (Z.to_nat n - S (Z.to_nat (n - 1)))%nat with 0%nat by lia.
  reflexivity.
Qed.

(** C1, as stated, fails on the number of retries.  With the default
    budget of 3 and an upstream that answers every request with 429,
    [_request] sends three requests in all, the first attempt and two
    retries, not three retries; the sleeps of 1 and 2 seconds precede the
    two retries, and the run ends with the rate-limit error. *)
Lemma C1_retry_count_counterexample :
  let req := mkRequest "GET" "/company" None None in
  let w := start ∅ (always (mkResponse 429 "slow down" None)) in
  let run := Client._request (client_of "tok") "GET" "/company" None None
               Client.max_retries_default w in
  fst run = Raise (KotApiError 429 "Rate limit exceeded after retries")
  /\ events_since w (snd run) =
       [EvRequest req; EvWarning "Rate limited (429). Retry in 1s..."; EvSleep 1;
        EvRequest req; EvWarning "Rate limited (429). Retry in 2s..."; EvSleep 2;
        EvRequest req; EvWarning "Rate limited (429). Retry in 4s..."; EvSleep 4]
  /\ issued w (snd run) = [req; req; req]
  /\ retries w (snd run) = 2%nat
  /\ retries w (snd run) <> Z.to_nat Client.max_retries_default.
Proof. cbv zeta. repeat split; vm_compute; (reflexivity || discriminate). Qed.

(** C1, amended.  When every attempt of the budget is answered with 429,
    [_request] fails with [KotApiError] of status 429 after exactly
    [max_retries] attempts, all sending the same request: that is
    [max_retries - 1] retries.  Before each retry it sleeps [2 ^ attempt]
    seconds, [attempt] counting from 0: the run consists of the attempts
    0 to [max_retries - 2], each followed by its warning and its sleep,
    then the last request, after which no request is sent any more. *)
Theorem C1_throttled_attempts_then_rate_limit_error
    self method path params json_body max_retries w :
  let req := mkRequest method path params json_body in
  let run := Client._request self method path params json_body max_retries w in
  throttled w req (Z.to_nat max_retries) = true ->
  fst run = Raise (KotApiError 429 "Rate limit exceeded after retries")
  /\ issued w (snd run) = repeat req (Z.to_nat max_retries)
  /\ ((1 <= max_retries)%Z ->
      retries w (snd run) = Z.to_nat (max_retries - 1)
      /\ exists tail,
           events_since w (snd run) =
             flat_map (backoff req) (range (max_retries - 1)) ++ EvRequest req :: tail
           /\ requests_of tail = []
           /\ sleeps_of (flat_map (backoff req) (range (max_retries - 1))) =
                map (fun attempt => 2 ^ attempt)%Z (range (max_retries - 1))).
Proof.
  intros req run Ht. unfold run.
  rewrite (request_throttled self method path params json_body max_retries w Ht).
  fold req. simpl fst. simpl snd. unfold retries, issued.
  rewrite events_since_advance, requests_of_backoffs, length_range.
  split; [reflexivity|]. split; [reflexivity|].
  intros Hpos. split.
  - rewrite repeat_length. lia.
  - exists [EvWarning ("Rate limited (429). Retry in "
                       +:+ str_int (2 ^ (max_retries - 1)) +:+ "s...");
            EvSleep (2 ^ (max_retries - 1))].
    split; [|split].
    + rewrite (range_last max_retries Hpos) at 1.
      rewrite flat_map_app. simpl. reflexivity.
    + reflexivity.
    + apply sleeps_of_backoffs.
Qed.

(** An instance: the default budget against an upstream that always
    answers 429. *)
Lemma C1_throttled_attempts_then_rate_limit_error_witness :
  let req := mkRequest "GET" "/company" None None in
  let w := start ∅ (always (mkResponse 429 "slow down" None)) in
  let run := Client._request (client_of "tok") "GET" "/company" None None 3 w in
  fst run = Raise (KotApiError 429 "Rate limit exceeded after retries")
  /\ issued w (snd run) = [req; req; req]
  /\ retries w (snd run) = 2%nat.
Proof.
  pose proof (C1_throttled_attempts_then_rate_limit_error
                (client_of "tok") "GET" "/company" None None 3
                (start ∅ (always (mkResponse 429 "slow down" None))) eq_refl) as H.
  cbv zeta in H. destruct H as (Hout & Hissued & Hretries).
  split; [exact Hout|]. split; [exact Hissued|].
  exact (proj1 (Hretries ltac:(lia))).
Defined.

(** C2.  When the core receives, within its budget and after any number
    of rate-limited attempts, a response whose status is at least 400 and
    not 429, it raises [KotApiError] with exactly that status and the raw
    body text, and it stops there: the request that got this response is
    the last event of the run, so no further attempt, warning or sleep
    follows. *)
Theorem C2_error_status_fails_immediately
    self method path params json_body max_retries w k resp :
  let req := mkRequest method path params json_body in
  let run := Client._request self method path params json_body max_retries w in
  (Z.of_nat k < max_retries)%Z ->
  throttled w req k = true ->
  upstream w (sent w + k) req = Answer resp ->
  (400 <= status_code resp)%Z ->
  status_code resp <> 429%Z ->
  fst run = Raise (KotApiError (status_code resp) (text resp))
  /\ snd run = advance w (S k) (flat_map (backoff req) (range (Z.of_nat k)) ++ [EvRequest req])
  /\ issued w (snd run) = repeat req (S k)
  /\ sent (snd run) = (sent w + k + 1)%nat.
Proof.
  intros req run Hk Ht Hup H400 H429. unfold run.
  rewrite (request_after_throttling self method path params json_body
             max_retries w k resp Hk Ht Hup H429).
  cbv zeta. fold req.
  replace (status_code resp >=? 400)%Z with true
    by (symmetry; rewrite Z.geb_leb; apply Z.leb_le; exact H400).
  simpl fst. simpl snd. unfold issued. rewrite events_since_advance.
  repeat split.
  - rewrite requests_of_app, requests_of_backoffs, length_range, Nat2Z.id.
    simpl. rewrite <- repeat_cons. reflexivity.
  - simpl. lia.
Qed.

(** An instance: one 429, then a 500 with the body [boom]. *)
Lemma C2_error_status_fails_immediately_witness :
  let self := client_of "tok" in
  let req := mkRequest "GET" "/company" None None in
  let w := start ∅ (scripted [mkResponse 429 "slow down" None]
                             (mkResponse 500 "boom" None)) in
  let run := Client._request self "GET" "/company" None None 3 w in
  fst run = Raise (KotApiError 500 "boom")
  /\ snd run = advance w 2 (flat_map (backoff req) (range 1) ++ [EvRequest req])
  /\ issued w (snd run) = [req; req]
  /\ sent (snd run) = 2%nat.
Proof.
  exact (C2_error_status_fails_immediately
           (client_of "tok") "GET" "/company" None None 3
           (start ∅ (scripted [mkResponse 429 "slow down" None]
                              (mkResponse 500 "boom" None)))
           1 (mkResponse 500 "boom" None)
           eq_refl eq_refl eq_refl
           ltac:(simpl; lia) ltac:(simpl; lia)).
Defined.

(** C3.  When the response that ends the loop has status 204, the core
    returns [None] and decodes nothing: the run contains no call of
    [resp.json()], whatever the body holds.  When it has any other status
    below 400 (and is not 429), the core calls [resp.json()] once and its
    result is the result of that call, the decoded body. *)
Theorem C3_no_content_returns_None_else_decoded_body
    self method path params json_body max_retries w k resp :
  let req := mkRequest method path params json_body in
  let run := Client._request self method path params json_body max_retries w in
  let before := flat_map (backoff req) (range (Z.of_nat k)) in
  (Z.of_nat k < max_retries)%Z ->
  throttled w req k = true ->
  upstream w (sent w + k) req = Answer resp ->
  (status_code resp = 204%Z ->
     run = (Return PNone, advance w (S k) (before ++ [EvRequest req]))
     /\ json_calls (events_since w (snd run)) = 0%nat)
  /\ ((status_code resp < 400)%Z -> status_code resp <> 204%Z ->
      status_code resp <> 429%Z ->
      run = (decoded resp, advance w (S k) (before ++ [EvRequest req; EvJson]))
      /\ json_calls (events_since w (snd run)) = 1%nat
      /\ forall v, json resp = Some v -> fst run = Return v).
Proof.
  intros req run before Hk Ht Hup. split.
  - intros H204.
    assert (H429 : status_code resp <> 429%Z) by (rewrite H204; discriminate).
    unfold run.
    rewrite (request_after_throttling self method path params json_body
               max_retries w k resp Hk Ht Hup H429).
    cbv zeta. fold req. fold before. rewrite H204. simpl.
    split; [reflexivity|].
    rewrite events_since_advance, json_calls_app. unfold before.
    rewrite json_calls_backoffs. reflexivity.
  - intros H400 H204 H429. unfold run.
    rewrite (request_after_throttling self method path params json_body
               max_retries w k resp Hk Ht Hup H429).
    cbv zeta. fold req. fold before.
    replace (status_code resp >=? 400)%Z with false
      by (symmetry; rewrite Z.geb_leb; apply Z.leb_gt; exact H400).
    apply Z.eqb_neq in H204. rewrite H204. simpl.
    split; [reflexivity|]. split.
    + rewrite events_since_advance, json_calls_app. unfold before.
      rewrite json_calls_backoffs. reflexivity.
    + intros v Hv. unfold decoded. rewrite Hv. reflexivity.
Qed.

(** Two instances: a 204 at once, and a 200 with the body [{}] after one
    429. *)
Lemma C3_no_content_returns_None_else_decoded_body_witness :
  let self := client_of "tok" in
  let req := mkRequest "PUT" "/requests/R1" None (Some [("action", PStr "approve")]) in
  let no_content := mkResponse 204 "" None in
  let ok := mkResponse 200 "{}" (Some (PDict [])) in
  let w204 := start ∅ (always no_content) in
  let w200 := start ∅ (scripted [mkResponse 429 "" None] ok) in
  Client._request self "PUT" "/requests/R1" None (Some [("action", PStr "approve")]) 3 w204
    = (Return PNone, advance w204 1 [EvRequest req])
  /\ Client._request self "PUT" "/requests/R1" None (Some [("action", PStr "approve")]) 3 w200
    = (Return (PDict []), advance w200 2 (backoff req 0 ++ [EvRequest req; EvJson])).
Proof.
  split.
  - exact (proj1 (proj1 (C3_no_content_returns_None_else_decoded_body
             (client_of "tok") "PUT" "/requests/R1" None
             (Some [("action", PStr "approve")]) 3
             (start ∅ (always (mkResponse 204 "" None))) 0 (mkResponse 204 "" None)
             eq_refl eq_refl eq_refl) eq_refl)).
  - exact (proj1 (proj2 (C3_no_content_returns_None_else_decoded_body
             (client_of "tok") "PUT" "/requests/R1" None
             (Some [("action", PStr "approve")]) 3
             (start ∅ (scripted [mkResponse 429 "" None]
                                (mkResponse 200 "{}" (Some (PDict [])))))
             1 (mkResponse 200 "{}" (Some (PDict [])))
             eq_refl eq_refl eq_refl)
             ltac:(simpl; lia) ltac:(simpl; lia) ltac:(simpl; lia))).
Defined.

(** ** Properties of the endpoint methods *)

(** Whatever the upstream does, the loop sends the same request each time,
    at most once per attempt and at least once when it has an attempt. *)
Lemma loop_issued self req attempts :
  forall w, exists k evs,
    snd (Client._request_loop self req attempts w) = advance w k evs
    /\ requests_of evs = repeat req k
    /\ (k <= length attempts)%nat
    /\ (attempts <> [] -> 1 <= k)%nat.
Proof.
  induction attempts as [|a rest IH]; intros w.
  - exists 0%nat, []. simpl. rewrite advance_0. repeat split; [lia|congruence].
  - destruct (upstream w (sent w) req) as [resp|name] eqn:Hup.
    + destruct (Z.eq_dec (status_code resp) 429%Z) as [H429|H429].
      * rewrite (loop_step_429 self req a rest w resp Hup H429).
        destruct (IH (advance w 1 (backoff req a))) as (k & evs & Hs & Hr & Hle & _).
        exists (1 + k)%nat, (backoff req a ++ evs).
        rewrite Hs, advance_advance, requests_of_app, Hr. simpl.
        repeat split; lia.
      * rewrite (loop_step_final self req a rest w resp Hup H429).
        destruct (status_code resp >=? 400)%Z;
          [|destruct (status_code resp =? 204)%Z];
          [exists 1%nat, [EvRequest req] | exists 1%nat, [EvRequest req]
          | exists 1%nat, [EvRequest req; EvJson]];
          simpl; repeat split; lia.
    + exists 1%nat, [EvRequest req]. simpl. unfold bind, AsyncClient_request.
      rewrite Hup. simpl. unfold advance.
      replace (sent w + 1)%nat with (S (sent w)) by lia.
      repeat split; lia.
Qed.

Lemma request_sends_only self method path params json_body w :
  sends_only (Client._request self method path params json_body Client.max_retries_default)
    w (mkRequest method path params json_body).
Proof.
  unfold sends_only, Client._request.
  destruct (loop_issued self (mkRequest method path params json_body)
              (range Client.max_retries_default) w) as (k & evs & Hs & Hr & Hle & Hge).
  exists k. split.
  - split; [apply Hge; discriminate | exact Hle].
  - rewrite Hs. unfold issued. rewrite events_since_advance. exact Hr.
Qed.

Lemma dict_get_filter_not_None (kwargs : dict) key v :
  dict_get (List.filter (fun kv => is_not_None (snd kv)) kwargs) key = Some v ->
  v <> PNone /\ In (key, v) kwargs.
Proof.
  induction kwargs as [|[k' v'] kwargs IH]; simpl; [discriminate|].
  destruct (is_not_None v') eqn:Hv'; simpl.
  - destruct (String.eqb k' key) eqn:Hk.
    + intros [= <-]. apply String.eqb_eq in Hk. subst k'. split.
      * intros ->. discriminate.
      * left. reflexivity.
    + intros H. destruct (IH H) as [Hn Hin]. split; [exact Hn|right; exact Hin].
  - intros H. destruct (IH H) as [Hn Hin]. split; [exact Hn|right; exact Hin].
Qed.


Lemma dict_get_filter_dropped (kwargs : dict) key :
  NoDup (dict_keys kwargs) -> In (key, PNone) kwargs ->
  dict_get (List.filter (fun kv => is_not_None (snd kv)) kwargs) key = None.
Proof.
  intros Hnd Hin.
  destruct (dict_get (List.filter (fun kv => is_not_None (snd kv)) kwargs) key)
    as [v|] eqn:Hget; [|reflexivity].
  exfalso. destruct (dict_get_filter_not_None kwargs key v Hget) as [Hv Hin'].
  clear Hget. induction kwargs as [|[k' v'] kwargs IH]; [destruct Hin|].
  simpl in Hnd. inversion Hnd as [|? ? Hnotin Hnd']; subst.
  rewrite list_elem_of_In in Hnotin.
  assert (Hk : forall x, In (key, x) kwargs -> In key (dict_keys kwargs)).
  { intros x Hx. unfold dict_keys. change key with (fst (key, x)).
    apply in_map. exact Hx. }
  destruct Hin as [Heq|Hin]; destruct Hin' as [Heq'|Hin'].
  - apply Hv. congruence.
  - injection Heq as -> _. apply Hnotin. apply (Hk v). exact Hin'.
  - injection Heq' as -> _. apply Hnotin. apply (Hk PNone). exact Hin.
  - exact (IH Hnd' Hin Hin').
Qed.

Lemma query_value_or_None m p (d : dict) b key :
  query_value (mkRequest m p (Client.or_None d) b) key = dict_get d key.
Proof. destruct d; reflexivity. Qed.

(** What [_get] sends: one request description, method GET, no JSON body,
    and a query mapping that keeps only the keyword arguments that are not
    [None]. *)
Lemma get_sends_filtered self path (kwargs : dict) w :
  exists req,
    sends_only (Client._get self path kwargs) w req
    /\ method req = "GET" /\ Py.path req = path /\ json_body req = None
    /\ (forall key v, query_value req key = Some v -> v <> PNone /\ In (key, v) kwargs)
    /\ (forall key, NoDup (dict_keys kwargs) -> In (key, PNone) kwargs ->
          query_has req key = false).
Proof.
  set (filtered := List.filter (fun kv => is_not_None (snd kv)) kwargs).
  exists (mkRequest "GET" path (Client.or_None filtered) None).
  split; [apply request_sends_only|].
  split; [reflexivity|]. split; [reflexivity|]. split; [reflexivity|]. split.
  - intros key v H. rewrite query_value_or_None in H.
    exact (dict_get_filter_not_None kwargs key v H).
  - intros key Hnd Hin.
    pose proof (dict_get_filter_dropped kwargs key Hnd Hin) as Hd. fold filtered in Hd.
    rewrite <- (query_value_or_None "GET" path filtered None key) in Hd.
    unfold query_has. unfold query_value in Hd.
    destruct (params (mkRequest "GET" path (Client.or_None filtered) None));
      [rewrite Hd|]; reflexivity.
Qed.

(** C4.  Every GET endpoint method goes through [_get], and the requests
    [_get] sends carry a query mapping in which no entry is [None] and in
    which a keyword passed as [None] has no entry at all.  For the three
    methods with optional query parameters, the mapping holds exactly the
    supplied arguments: an omitted one has no entry, a supplied one is sent
    with its value.  In particular [get_daily_workings] with only the start
    and end date sends GET /daily-workings with [startDate] and [endDate]
    and neither [date] nor [divisionCode]. *)
Theorem C4_unset_query_parameters_absent :
  (forall self path (kwargs : dict) w,
     exists req,
       sends_only (Client._get self path kwargs) w req
       /\ method req = "GET" /\ Py.path req = path /\ json_body req = None
       /\ (forall key v, query_value req key = Some v -> v <> PNone /\ In (key, v) kwargs)
       /\ (forall key, NoDup (dict_keys kwargs) -> In (key, PNone) kwargs ->
             query_has req key = false))
  /\ (forall self division_code w,
        exists req,
          sends_only (Client.list_employees self division_code) w req
          /\ method req = "GET" /\ Py.path req = "/employees"
          /\ query_value req "divisionCode" = supplied division_code)
  /\ (forall self date start_date end_date division_code w,
        exists req,
          sends_only (Client.get_daily_workings self date start_date end_date
                        division_code) w req
          /\ method req = "GET" /\ Py.path req = "/daily-workings"
          /\ query_value req "date" = supplied date
          /\ query_value req "startDate" = supplied start_date
          /\ query_value req "endDate" = supplied end_date
          /\ query_value req "divisionCode" = supplied division_code)
  /\ (forall self date division_code w,
        exists req,
          sends_only (Client.get_monthly_workings self date division_code) w req
          /\ method req = "GET" /\ Py.path req = "/monthly-workings/" +:+ date
          /\ query_value req "divisionCode" = supplied division_code)
  /\ (forall self w,
        let req := mkRequest "GET" "/daily-workings"
                     (Some [("startDate", PStr "2026-01-01");
                            ("endDate", PStr "2026-01-31")]) None in
        sends_only (Client.get_daily_workings self None (Some "2026-01-01")
                      (Some "2026-01-31") None) w req
        /\ query_has req "date" = false
        /\ query_has req "divisionCode" = false).
Proof.
  split; [|split; [|split; [|split]]].
  - intros self path kwargs w.
    destruct (get_sends_filtered self path kwargs w)
      as (req & Hs & Hm & Hp & Hj & Hv & Hn).
    exists req. repeat split; try assumption; apply (Hv key v); assumption.
  - intros self division_code w. eexists. split.
    + unfold Client.list_employees, Client._get. apply request_sends_only.
    + destruct division_code; repeat split; reflexivity.
  - intros self date start_date end_date division_code w. eexists. split.
    + unfold Client.get_daily_workings, Client._get. apply request_sends_only.
    + destruct date, start_date, end_date, division_code; repeat split; reflexivity.
  - intros self date division_code w. eexists. split.
    + unfold Client.get_monthly_workings, Client._get. apply request_sends_only.
    + destruct division_code; repeat split; reflexivity.
  - intros self w req. split; [|split; reflexivity].
    unfold Client.get_daily_workings, Client._get. apply request_sends_only.
Qed.

(** C5.  [record_time("E001", 1)] without date and time sends
    POST /daily-workings/timerecord/E001 and nothing else, and the JSON
    body of that request is exactly [{"type": 1}]: it has no [date] and no
    [time] entry. *)
Theorem C5_record_time_body_has_only_type :
  forall self w,
    let req := mkRequest "POST" "/daily-workings/timerecord/E001" None
                 (Some [("type", PInt 1)]) in
    sends_only (Client.record_time self "E001" 1 None None) w req
    /\ json_body req = Some [("type", PInt 1)]
    /\ body_has req "date" = false
    /\ body_has req "time" = false.
Proof.
  intros self w req. split; [|repeat split].
  unfold Client.record_time, Client._post. simpl. apply request_sends_only.
Qed.

(** C9.  The inclusion checks of the mutating endpoints test truthiness:
    [reject_request] with the empty reason sends the body
    [{"action": "reject"}] without a [reason] entry, and [record_time]
    treats an empty [date] or [time] exactly as an omitted one, so that the
    body has a [date] (a [time]) entry only for a supplied, non-empty
    argument. *)
Theorem C9_empty_string_argument_is_omitted :
  (forall self request_id w,
     let req := mkRequest "PUT" ("/requests/" +:+ request_id) None
                  (Some [("action", PStr "reject")]) in
     sends_only (Client.reject_request self request_id "") w req
     /\ body_has req "reason" = false)
  /\ (forall self employee_key record_type time,
        Client.record_time self employee_key record_type (Some "") time
        = Client.record_time self employee_key record_type None time)
  /\ (forall self employee_key record_type date,
        Client.record_time self employee_key record_type date (Some "")
        = Client.record_time self employee_key record_type date None)
  /\ (forall self employee_key record_type date time w,
        exists req,
          sends_only (Client.record_time self employee_key record_type date time) w req
          /\ method req = "POST"
          /\ Py.path req = "/daily-workings/timerecord/" +:+ employee_key
          /\ body_has req "type" = true
          /\ body_has req "date" = nonempty date
          /\ body_has req "time" = nonempty time).
Proof.
  split; [|split; [|split]].
  - intros self request_id w req. split; [|reflexivity].
    unfold Client.reject_request, Client._put. simpl. apply request_sends_only.
  - reflexivity.
  - reflexivity.
  - intros self employee_key record_type date time w. eexists. split.
    + unfold Client.record_time, Client._post. apply request_sends_only.
    + destruct date as [[|c s]|], time as [[|c' s']|]; repeat split; reflexivity.
Qed.

(** ** Properties of the tool adapter *)

Lemma get_client_unset w :
  environ w !! "KOT_ACCESS_TOKEN" = None \/ environ w !! "KOT_ACCESS_TOKEN" = Some "" ->
  Server._get_client w = (Raise (RuntimeError Server.TOKEN_UNSET), w).
Proof.
  intros H. unfold Server._get_client, bind, os_environ_get.
  destruct H as [H|H]; rewrite H; reflexivity.
Qed.

Lemma get_client_set w token :
  environ w !! "KOT_ACCESS_TOKEN" = Some token -> token <> "" ->
  ascii_only token = true ->
  Server._get_client w = (Return (client_of token), opened w token).
Proof.
  intros H Hne Hascii. unfold Server._get_client, bind, os_environ_get. rewrite H.
  simpl. destruct (String.eqb_spec token ""); [contradiction|]. simpl.
  unfold Client.__init__, httpx_AsyncClient, bind. simpl.
  change ("" +:+ token) with token. rewrite Hascii. reflexivity.
Qed.

Lemma get_client_not_ascii w token :
  environ w !! "KOT_ACCESS_TOKEN" = Some token -> token <> "" ->
  ascii_only token = false ->
  Server._get_client w = (Raise (OtherError "UnicodeEncodeError"), w).
Proof.
  intros H Hne Hascii. unfold Server._get_client, bind, os_environ_get. rewrite H.
  simpl. destruct (String.eqb_spec token ""); [contradiction|]. simpl.
  unfold Client.__init__, httpx_AsyncClient, bind. simpl.
  change ("" +:+ token) with token. rewrite Hascii. reflexivity.
Qed.

Lemma get_client_returns w c w1 :
  Server._get_client w = (Return c, w1) ->
  exists token,
    environ w !! "KOT_ACCESS_TOKEN" = Some token /\ token <> ""
    /\ c = client_of token /\ w1 = opened w token.
Proof.
  intros H. destruct (environ w !! "KOT_ACCESS_TOKEN") as [token|] eqn:He.
  - destruct (String.eqb_spec token "") as [->|Hne].
    + rewrite get_client_unset in H by (right; exact He). discriminate.
    + destruct (ascii_only token) eqn:Hascii.
      * rewrite (get_client_set w token He Hne Hascii) in H. injection H as <- <-.
        exists token. repeat split; assumption.
      * rewrite (get_client_not_ascii w token He Hne Hascii) in H. discriminate.
  - rewrite get_client_unset in H by (left; exact He). discriminate.
Qed.

(** Unfolds whichever tool function heads the goal. *)
Ltac unfold_tools :=
  unfold Server.get_company, Server.list_administrators, Server.list_employees,
    Server.get_employee, Server.list_divisions, Server.list_working_types,
    Server.list_employee_groups, Server.get_daily_workings,
    Server.get_monthly_workings, Server.get_yearly_holidays, Server.record_time,
    Server.get_schedule_requests, Server.approve_request, Server.reject_request,
    Server.check_token.

(** Every tool has the same shape: get the client, call one client method,
    render the result or the API error, close the client. *)
Lemma invoke_run t w c w1 :
  Server._get_client w = (Return c, w1) ->
  Server.invoke t w =
  match client_call t c w1 with
  | (Return v, w2) => (Return (rendered t v), closed w2)
  | (Raise (KotApiError status message), w2) =>
      (Return (error_text status message), closed w2)
  | (Raise e, w2) => (Raise e, closed w2)
  end.
Proof.
  intros H.
  destruct t; cbn [Server.invoke client_call rendered];
    unfold_tools;
    unfold bind at 1; rewrite H;
    unfold try_finally, try_except_KotApiError, bind;
    match goal with
    | |- context [match ?call c w1 with _ => _ end] =>
        destruct (call c w1) as [[v|[status message|msg|name|]] w2]
    | |- context [match ?call c ?a w1 with _ => _ end] =>
        destruct (call c a w1) as [[v|[status message|msg|name|]] w2]
    | |- context [match ?call c ?a ?b w1 with _ => _ end] =>
        destruct (call c a b w1) as [[v|[status message|msg|name|]] w2]
    | |- context [match ?call c ?a ?b ?d ?e w1 with _ => _ end] =>
        destruct (call c a b d e w1) as [[v|[status message|msg|name|]] w2]
    end;
    reflexivity.
Qed.

(** Without a client there is no tool run: the failure of [_get_client]
    leaves the tool as it is. *)
Lemma invoke_without_client t w e w1 :
  Server._get_client w = (Raise e, w1) ->
  Server.invoke t w = (Raise e, w1).
Proof.
  intros H.
  destruct t; cbn [Server.invoke];
    unfold_tools;
    unfold bind at 1; rewrite H; reflexivity.
Qed.


Lemma multiline_append a b : multiline (a +:+ b) = multiline a || multiline b.
Proof.
  induction a as [|c a IH]; simpl; [reflexivity|].
  rewrite IH. apply orb_assoc.
Qed.

Lemma multiline_string_of_uint d : multiline (NilEmpty.string_of_uint d) = false.
Proof. induction d; simpl; assumption || reflexivity. Qed.

Lemma multiline_str_int z : multiline (str_int z) = false.
Proof.
  unfold str_int, NilZero.string_of_int, NilZero.string_of_uint.
  destruct (Z.to_int z) as [d|d]; destruct d; simpl;
    try reflexivity; apply multiline_string_of_uint.
Qed.

Lemma multiline_error_text status message :
  multiline (error_text status message) = multiline message.
Proof.
  unfold error_text. rewrite !multiline_append, multiline_str_int. reflexivity.
Qed.

(** C6, as stated, fails for a body that decodes to a falsy value.  The
    endpoint answers 200 with the body [{}], or with the body [false]: the
    body is not empty, yet the tool returns the fixed confirmation and not
    the pretty-printed body. *)
Lemma C6_falsy_body_counterexample :
  let answer_obj := mkResponse 200 "{}" (Some (PDict [])) in
  let answer_false := mkResponse 200 "false" (Some (PBool false)) in
  let run_obj := Server.approve_request "R1" (start (env_with_token "tok") (always answer_obj)) in
  let run_false := Server.approve_request "R1" (start (env_with_token "tok") (always answer_false)) in
  (fst run_obj = Return "承認しました"
   /\ text answer_obj <> ""
   /\ fst run_obj <> Return (Server._fmt (PDict [])))
  /\ (fst run_false = Return "承認しました"
      /\ text answer_false <> ""
      /\ fst run_false <> Return (Server._fmt (PBool false))).
Proof.
  cbv zeta. split; (split; [vm_compute; reflexivity|split; [discriminate|]]).
  - vm_compute. discriminate.
  - vm_compute. discriminate.
Qed.

(** C6, amended.  Once [_get_client] has returned the client, when the
    response that ends the client's loop has status 204 the
    [approve_request] tool returns the fixed confirmation; when it is
    another success response, the tool returns the decoded body
    pretty-printed as JSON text if that value is truthy, and the same fixed
    confirmation if it is falsy. *)
Theorem C6_approve_request_confirmation_or_json request_id w c w1 k resp :
  let req := mkRequest "PUT" ("/requests/" +:+ request_id) None
               (Some [("action", PStr "approve")]) in
  let run := Server.approve_request request_id w in
  Server._get_client w = (Return c, w1) ->
  (k < 3)%nat ->
  throttled w req k = true ->
  upstream w (sent w + k) req = Answer resp ->
  (status_code resp = 204%Z -> fst run = Return "承認しました")
  /\ ((status_code resp < 400)%Z -> status_code resp <> 204%Z ->
      status_code resp <> 429%Z ->
      forall v, json resp = Some v ->
        fst run = Return (if truthy v then Server._fmt v else "承認しました")).
Proof.
  intros req run Hc Hk Ht Hup.
  pose proof (invoke_run (Server.call_approve_request request_id) w c w1 Hc) as Hrun.
  destruct (get_client_returns w c w1 Hc) as (token & _ & _ & -> & ->).
  cbn [Server.invoke client_call rendered] in Hrun.
  unfold Client.approve_request, Client._put in Hrun. fold req in Hrun.
  assert (Hcore : status_code resp <> 429%Z ->
    Client._request (client_of token) "PUT" ("/requests/" +:+ request_id) None
      (Some [("action", PStr "approve")]) Client.max_retries_default (opened w token) =
    let before := flat_map (backoff req) (range (Z.of_nat k)) in
    (if (status_code resp >=? 400)%Z then
       (Raise (KotApiError (status_code resp) (text resp)),
        advance (opened w token) (S k) (before ++ [EvRequest req]))
     else if (status_code resp =? 204)%Z then
       (Return PNone, advance (opened w token) (S k) (before ++ [EvRequest req]))
     else (decoded resp,
           advance (opened w token) (S k) (before ++ [EvRequest req; EvJson])))).
  { intros H429. apply request_after_throttling.
    - unfold Client.max_retries_default. lia.
    - exact Ht.
    - exact Hup.
    - exact H429. }
  split.
  - intros H204. unfold run. rewrite Hrun, Hcore by (rewrite H204; discriminate).
    cbv zeta. rewrite H204. reflexivity.
  - intros H400 H204 H429 v Hv. unfold run. rewrite Hrun, Hcore by exact H429.
    cbv zeta.
    replace (status_code resp >=? 400)%Z with false
      by (symmetry; rewrite Z.geb_leb; apply Z.leb_gt; exact H400).
    apply Z.eqb_neq in H204. rewrite H204.
    unfold decoded. rewrite Hv. reflexivity.
Qed.

(** Two instances: the endpoint answers 204, and it answers 200 with the
    body [[1]]. *)
Lemma C6_approve_request_confirmation_or_json_witness :
  let approved := PList [PInt 1] in
  fst (Server.approve_request "R1"
         (start (env_with_token "tok") (always (mkResponse 204 "" None))))
    = Return "承認しました"
  /\ fst (Server.approve_request "R1"
            (start (env_with_token "tok")
               (always (mkResponse 200 "[1]" (Some approved)))))
    = Return (Server._fmt approved).
Proof.
  split.
  - exact (proj1 (C6_approve_request_confirmation_or_json "R1"
             (start (env_with_token "tok") (always (mkResponse 204 "" None)))
             (client_of "tok")
             (opened (start (env_with_token "tok") (always (mkResponse 204 "" None)))
                "tok")
             0 (mkResponse 204 "" None)
             eq_refl ltac:(lia) eq_refl eq_refl) eq_refl).
  - exact (proj2 (C6_approve_request_confirmation_or_json "R1"
             (start (env_with_token "tok")
                (always (mkResponse 200 "[1]" (Some (PList [PInt 1])))))
             (client_of "tok")
             (opened (start (env_with_token "tok")
                        (always (mkResponse 200 "[1]" (Some (PList [PInt 1]))))) "tok")
             0 (mkResponse 200 "[1]" (Some (PList [PInt 1])))
             eq_refl ltac:(lia) eq_refl eq_refl)
             ltac:(simpl; lia) ltac:(simpl; lia) ltac:(simpl; lia)
             (PList [PInt 1]) eq_refl).
Defined.

(** C7.  When the access token is absent from the environment, every tool
    raises the configuration error and nothing else happens: the world is
    unchanged, so no client was built and no request was sent, and the
    outcome is the raised [RuntimeError], not a returned text. *)
Theorem C7_missing_token_raises_before_any_effect t w :
  environ w !! "KOT_ACCESS_TOKEN" = None ->
  Server.invoke t w = (Raise (RuntimeError Server.TOKEN_UNSET), w)
  /\ events_since w (snd (Server.invoke t w)) = []
  /\ forall text, fst (Server.invoke t w) <> Return text.
Proof.
  intros H.
  assert (Hrun : Server.invoke t w = (Raise (RuntimeError Server.TOKEN_UNSET), w)).
  { apply invoke_without_client. apply get_client_unset. left. exact H. }
  rewrite Hrun. split; [reflexivity|]. split.
  - unfold events_since. simpl. apply skipn_all.
  - intros text. discriminate.
Qed.

(** An instance: [get_company] in the empty environment. *)
Lemma C7_missing_token_raises_before_any_effect_witness :
  let w := start ∅ (always (mkResponse 200 "[1]" (Some (PList [PInt 1])))) in
  Server.invoke Server.call_get_company w = (Raise (RuntimeError Server.TOKEN_UNSET), w)
  /\ events_since w (snd (Server.invoke Server.call_get_company w)) = []
  /\ forall text, fst (Server.invoke Server.call_get_company w) <> Return text.
Proof.
  exact (C7_missing_token_raises_before_any_effect Server.call_get_company
           (start ∅ (always (mkResponse 200 "[1]" (Some (PList [PInt 1]))))) eq_refl).
Defined.

(** C8, as stated, fails for an error whose message spans several lines.
    The upstream answers 500 with a two-line body; the tool returns the
    error text, and that text is not one line. *)
Lemma C8_multiline_error_counterexample :
  let body := "upstream failed" +:+ LF +:+ "try again later" in
  let run := Server.invoke Server.call_get_company
               (start (env_with_token "tok") (always (mkResponse 500 body None))) in
  fst run = Return ("エラー: [500] upstream failed" +:+ LF +:+ "try again later")
  /\ multiline ("エラー: [500] upstream failed" +:+ LF +:+ "try again later") = true.
Proof. cbv zeta. split; vm_compute; reflexivity. Qed.

(** C8, amended.  For every tool whose client was obtained: when the
    client call raises [KotApiError], the tool closes the client and
    returns the text "エラー: [status] message", which is one line exactly
    when the message is; when the client call raises anything else, the
    tool closes the client and the exception propagates.  An exception of
    [_get_client] itself propagates as well. *)
Theorem C8_api_error_becomes_text_others_propagate t w c w1 :
  Server._get_client w = (Return c, w1) ->
  (forall status message w2,
     client_call t c w1 = (Raise (KotApiError status message), w2) ->
     Server.invoke t w = (Return (error_text status message), closed w2)
     /\ multiline (error_text status message) = multiline message)
  /\ (forall e w2,
        client_call t c w1 = (Raise e, w2) ->
        (forall status message, e <> KotApiError status message) ->
        Server.invoke t w = (Raise e, closed w2))
  /\ (forall w0 e w0',
        Server._get_client w0 = (Raise e, w0') ->
        Server.invoke t w0 = (Raise e, w0')).
Proof.
  intros Hc. split; [|split].
  - intros status message w2 Hcall.
    rewrite (invoke_run t w c w1 Hc), Hcall.
    split; [reflexivity|apply multiline_error_text].
  - intros e w2 Hcall Hother.
    rewrite (invoke_run t w c w1 Hc), Hcall.
    destruct e as [status message| | |]; [|reflexivity|reflexivity|reflexivity].
    exfalso. exact (Hother status message eq_refl).
  - intros w0 e w0'. apply invoke_without_client.
Qed.

(** Two instances: the upstream answers 500, and the transport fails to
    connect. *)
Lemma C8_api_error_becomes_text_others_propagate_witness :
  let w := start (env_with_token "tok") (always (mkResponse 500 "boom" None)) in
  let w' := start (env_with_token "tok") (fun _ _ => TransportFault "ConnectError") in
  let req := mkRequest "GET" "/company" None None in
  Server.invoke Server.call_get_company w
    = (Return "エラー: [500] boom", closed (advance (opened w "tok") 1 [EvRequest req]))
  /\ Server.invoke Server.call_get_company w'
    = (Raise (OtherError "ConnectError"),
       closed (advance (opened w' "tok") 1 [EvRequest req])).
Proof.
  split.
  - exact (proj1 (proj1 (C8_api_error_becomes_text_others_propagate
             Server.call_get_company
             (start (env_with_token "tok") (always (mkResponse 500 "boom" None)))
             (client_of "tok")
             (opened (start (env_with_token "tok") (always (mkResponse 500 "boom" None)))
                "tok")
             eq_refl) 500%Z "boom" _ eq_refl)).
  - exact (proj1 (proj2 (C8_api_error_becomes_text_others_propagate
             Server.call_get_company
             (start (env_with_token "tok") (fun _ _ => TransportFault "ConnectError"))
             (client_of "tok")
             (opened (start (env_with_token "tok")
                        (fun _ _ => TransportFault "ConnectError")) "tok")
             eq_refl)) (OtherError "ConnectError") _ eq_refl
             ltac:(discriminate)).
Defined.

(** C10.  A token variable that is set to the empty string is treated as
    an absent one: [_get_client] raises the same configuration error and
    leaves the world unchanged, and so does every tool.  Whenever
    [_get_client] does return a client, its token is the value of the
    variable and is not empty. *)
Theorem C10_empty_token_is_unset w :
  environ w !! "KOT_ACCESS_TOKEN" = Some "" ->
  Server._get_client w = (Raise (RuntimeError Server.TOKEN_UNSET), w)
  /\ (forall w0, environ w0 !! "KOT_ACCESS_TOKEN" = None ->
        Server._get_client w0 = (Raise (RuntimeError Server.TOKEN_UNSET), w0))
  /\ (forall t, Server.invoke t w = (Raise (RuntimeError Server.TOKEN_UNSET), w))
  /\ (forall w0 c w1,
        Server._get_client w0 = (Return c, w1) ->
        Client._token c <> ""
        /\ environ w0 !! "KOT_ACCESS_TOKEN" = Some (Client._token c)
        /\ events_since w0 w1 = [EvOpen (Client._client c)]).
Proof.
  intros H. split; [|split; [|split]].
  - apply get_client_unset. right. exact H.
  - intros w0 H0. apply get_client_unset. left. exact H0.
  - intros t. apply invoke_without_client. apply get_client_unset. right. exact H.
  - intros w0 c w1 Hc.
    destruct (get_client_returns w0 c w1 Hc) as (token & He & Hne & -> & ->).
    simpl. repeat split; try assumption.
    unfold events_since, opened, note. simpl.
    rewrite skipn_app, skipn_all, Nat.sub_diag. reflexivity.
Qed.

(** An instance: the token variable is set to the empty string. *)
Lemma C10_empty_token_is_unset_witness :
  let w := start (env_with_token "") (always (mkResponse 200 "[1]" (Some (PList [PInt 1])))) in
  Server._get_client w = (Raise (RuntimeError Server.TOKEN_UNSET), w)
  /\ Server.invoke Server.call_check_token w = (Raise (RuntimeError Server.TOKEN_UNSET), w).
Proof.
  split.
  - exact (proj1 (C10_empty_token_is_unset
             (start (env_with_token "")
                (always (mkResponse 200 "[1]" (Some (PList [PInt 1]))))) eq_refl)).
  - exact (proj1 (proj2 (proj2 (C10_empty_token_is_unset
             (start (env_with_token "")
                (always (mkResponse 200 "[1]" (Some (PList [PInt 1]))))) eq_refl)))
             Server.call_check_token).
Defined.

(** ** Further properties of the retrying core *)

Lemma firstn_seq_le j a n : (j <= n)%nat -> firstn j (seq a n) = seq a j.
Proof.
  revert a n. induction j as [|j IH]; intros a n H; [reflexivity|].
  destruct n as [|n]; [lia|]. simpl. rewrite IH by lia. reflexivity.
Qed.

Lemma firstn_range j (n : Z) :
  (j <= Z.to_nat n)%nat -> firstn j (range n) = range (Z.of_nat j).
Proof.
  intros H. unfold range. rewrite firstn_map, firstn_seq_le by exact H.
  rewrite Nat2Z.id. reflexivity.
Qed.

(** The shape of every run of the loop, whatever the upstream does: some
    rate-limited attempts, each with its warning and sleep, then one of
    the three endings. *)
Lemma loop_shape self req attempts :
  forall w, exists j fin,
    (j <= length attempts)%nat
    /\ In fin (endings req)
    /\ (fin = [] -> j = length attempts)
    /\ (fin <> [] -> (j < length attempts)%nat)
    /\ snd (Client._request_loop self req attempts w) =
         advance w (j + length (requests_of fin))
           (flat_map (backoff req) (firstn j attempts) ++ fin).
Proof.
  induction attempts as [|a rest IH]; intros w.
  - exists 0%nat, []. simpl. rewrite advance_0.
    repeat split; auto; congruence.
  - destruct (upstream w (sent w) req) as [resp|name] eqn:Hup.
    + destruct (Z.eq_dec (status_code resp) 429%Z) as [H429|H429].
      * rewrite (loop_step_429 self req a rest w resp Hup H429).
        destruct (IH (advance w 1 (backoff req a)))
          as (j & fin & Hj & Hin & Hnil & Hcons & Hs).
        exists (S j), fin. rewrite Hs, advance_advance. simpl.
        split; [lia|]. split; [exact Hin|]. split; [|split].
        -- intros Hf. rewrite (Hnil Hf). reflexivity.
        -- intros Hf. specialize (Hcons Hf). lia.
        -- reflexivity.
      * rewrite (loop_step_final self req a rest w resp Hup H429).
        destruct (status_code resp >=? 400)%Z;
          [|destruct (status_code resp =? 204)%Z];
          [exists 0%nat, [EvRequest req] | exists 0%nat, [EvRequest req]
          | exists 0%nat, [EvRequest req; EvJson]];
          simpl; repeat split; try lia; try discriminate; auto.
    + exists 0%nat, [EvRequest req]. simpl. unfold bind, AsyncClient_request.
      rewrite Hup. simpl. unfold advance.
      replace (sent w + 1)%nat with (S (sent w)) by lia.
      repeat split; try lia; try discriminate; auto.
Qed.

Lemma total_app a b : total (a ++ b) = (total a + total b)%Z.
Proof. induction a as [|x a IH]; simpl; [reflexivity|]. rewrite IH. lia. Qed.

Lemma range_succ (k : nat) : range (Z.of_nat (S k)) = range (Z.of_nat k) ++ [Z.of_nat k].
Proof.
  rewrite (range_last (Z.of_nat (S k))) by lia.
  replace (Z.of_nat (S k) - 1)%Z with (Z.of_nat k) by lia. reflexivity.
Qed.

(** The backoff delays of [k] attempts add up to [2 ^ k - 1] seconds. *)
Lemma total_backoff (k : nat) :
  total (map (fun attempt => 2 ^ attempt)%Z (range (Z.of_nat k))) = (2 ^ Z.of_nat k - 1)%Z.
Proof.
  induction k as [|k IH]; [reflexivity|].
  rewrite range_succ, map_app, total_app, IH. simpl.
  rewrite Nat2Z.inj_succ, Z.pow_succ_r by lia. lia.
Qed.

Lemma loop_step_fault self req attempt rest w name :
  upstream w (sent w) req = TransportFault name ->
  Client._request_loop self req (attempt :: rest) w =
  (Raise (OtherError name), advance w 1 [EvRequest req]).
Proof.
  intros Hup. simpl. unfold bind, AsyncClient_request. rewrite Hup.
  unfold advance. replace (sent w + 1)%nat with (S (sent w)) by lia. reflexivity.
Qed.

(** Retry, then success.  When the first [k] attempts are answered with
    429 and attempt [k], still within the budget, with a success status,
    the core returns [None] for 204 and the outcome of [resp.json()]
    otherwise; it has sent [k + 1] identical requests and slept
    1, 2, ..., [2 ^ (k - 1)] seconds in that order, [2 ^ k - 1] in all. *)
Theorem request_retries_then_returns
    self method path params json_body max_retries w k resp :
  let req := mkRequest method path params json_body in
  let run := Client._request self method path params json_body max_retries w in
  (Z.of_nat k < max_retries)%Z ->
  throttled w req k = true ->
  upstream w (sent w + k) req = Answer resp ->
  (status_code resp < 400)%Z ->
  fst run = (if (status_code resp =? 204)%Z then Return PNone else decoded resp)
  /\ issued w (snd run) = repeat req (S k)
  /\ sleeps_of (events_since w (snd run)) =
       map (fun attempt => 2 ^ attempt)%Z (range (Z.of_nat k))
  /\ total (sleeps_of (events_since w (snd run))) = (2 ^ Z.of_nat k - 1)%Z.
Proof.
  intros req run Hk Ht Hup H400.
  assert (H429 : status_code resp <> 429%Z) by lia.
  assert (Hsleeps : forall fin, sleeps_of fin = [] ->
            sleeps_of (flat_map (backoff req) (range (Z.of_nat k)) ++ fin)
            = map (fun attempt => 2 ^ attempt)%Z (range (Z.of_nat k))).
  { intros fin Hfin. clear -Hfin.
    induction (range (Z.of_nat k)) as [|a l IH]; simpl; [exact Hfin|].
    rewrite IH. reflexivity. }
  assert (Hreqs : forall fin, requests_of fin = [req] ->
            requests_of (flat_map (backoff req) (range (Z.of_nat k)) ++ fin)
            = repeat req (S k)).
  { intros fin Hfin.
    rewrite requests_of_app, requests_of_backoffs, length_range, Nat2Z.id, Hfin.
    rewrite <- repeat_cons. reflexivity. }
  unfold run.
  rewrite (request_after_throttling self method path params json_body
             max_retries w k resp Hk Ht Hup H429).
  cbv zeta. fold req.
  replace (status_code resp >=? 400)%Z with false
    by (symmetry; rewrite Z.geb_leb; apply Z.leb_gt; exact H400).
  unfold issued.
  destruct (status_code resp =? 204)%Z; simpl fst; simpl snd;
    rewrite events_since_advance, Hsleeps, Hreqs by reflexivity;
    (repeat split; [apply total_backoff]).
Qed.

(** An instance: 429 on the first two attempts and 200 on the third. *)
Lemma request_retries_then_returns_witness :
  let req := mkRequest "GET" "/company" None None in
  let w := start ∅ (scripted [mkResponse 429 "" None; mkResponse 429 "" None]
                             (mkResponse 200 "[1]" (Some (PList [PInt 1])))) in
  let run := Client._request (client_of "tok") "GET" "/company" None None 3 w in
  fst run = Return (PList [PInt 1])
  /\ issued w (snd run) = [req; req; req]
  /\ sleeps_of (events_since w (snd run)) = [1; 2]%Z
  /\ total (sleeps_of (events_since w (snd run))) = 3%Z.
Proof.
  exact (request_retries_then_returns (client_of "tok") "GET" "/company" None None 3
           (start ∅ (scripted [mkResponse 429 "" None; mkResponse 429 "" None]
                              (mkResponse 200 "[1]" (Some (PList [PInt 1])))))
           2 (mkResponse 200 "[1]" (Some (PList [PInt 1])))
           eq_refl eq_refl eq_refl eq_refl).
Defined.

(** A transport fault is not retried.  When the HTTP library raises while
    sending attempt [k], after [k] rate-limited attempts, the core lets
    that exception through as it is: the failed request is the last event
    of the run, and no warning, sleep or further request follows. *)
Theorem request_transport_fault_not_retried
    self method path params json_body max_retries w k name :
  let req := mkRequest method path params json_body in
  let run := Client._request self method path params json_body max_retries w in
  (Z.of_nat k < max_retries)%Z ->
  throttled w req k = true ->
  fails_at w req (sent w + k) name ->
  run = (Raise (OtherError name),
         advance w (S k) (flat_map (backoff req) (range (Z.of_nat k)) ++ [EvRequest req]))
  /\ issued w (snd run) = repeat req (S k).
Proof.
  intros req run Hk Ht Hup.
  assert (Hrun : run = (Raise (OtherError name),
            advance w (S k) (flat_map (backoff req) (range (Z.of_nat k)) ++ [EvRequest req]))).
  { unfold run, Client._request. fold req.
    rewrite (range_split max_retries k Hk).
    rewrite loop_throttled by (rewrite length_range, Nat2Z.id; exact Ht).
    rewrite length_range, Nat2Z.id.
    rewrite (loop_step_fault self req _ _ _ name) by exact Hup.
    rewrite advance_advance. replace (k + 1)%nat with (S k) by lia. reflexivity. }
  rewrite Hrun. split; [reflexivity|]. simpl snd. unfold issued.
  rewrite events_since_advance, requests_of_app, requests_of_backoffs,
    length_range, Nat2Z.id.
  simpl. rewrite <- repeat_cons. reflexivity.
Qed.

(** An instance: the connection fails on the first attempt. *)
Lemma request_transport_fault_not_retried_witness :
  let req := mkRequest "GET" "/company" None None in
  let w := start ∅ (fun _ _ => TransportFault "ConnectError") in
  let run := Client._request (client_of "tok") "GET" "/company" None None 3 w in
  run = (Raise (OtherError "ConnectError"), advance w 1 [EvRequest req])
  /\ issued w (snd run) = [req].
Proof.
  exact (request_transport_fault_not_retried (client_of "tok") "GET" "/company"
           None None 3 (start ∅ (fun _ _ => TransportFault "ConnectError"))
           0 "ConnectError" eq_refl eq_refl eq_refl).
Defined.

(** No budget, no request.  With [max_retries] zero or negative the loop
    has no attempt: the core sends nothing, leaves the world as it is and
    still fails with the rate-limit error of status 429. *)
Theorem request_without_budget self method path params json_body max_retries w :
  (max_retries <= 0)%Z ->
  Client._request self method path params json_body max_retries w
  = (Raise (KotApiError 429 "Rate limit exceeded after retries"), w).
Proof.
  intros H. unfold Client._request, range.
  replace (Z.to_nat max_retries) with 0%nat by lia. reflexivity.
Qed.

(** An instance: a budget of zero. *)
Lemma request_without_budget_witness :
  let w := start ∅ (always (mkResponse 200 "[1]" (Some (PList [PInt 1])))) in
  Client._request (client_of "tok") "GET" "/company" None None 0 w
  = (Raise (KotApiError 429 "Rate limit exceeded after retries"), w).
Proof.
  exact (request_without_budget (client_of "tok") "GET" "/company" None None 0
           (start ∅ (always (mkResponse 200 "[1]" (Some (PList [PInt 1])))))
           ltac:(lia)).
Defined.

(** The cost of a spent budget.  When every attempt of a budget of
    [max_retries] is answered with 429, the core has slept
    [2 ^ max_retries - 1] seconds in all, in [max_retries] sleeps, by the
    time it raises the rate-limit error. *)
Theorem request_total_backoff self method path params json_body max_retries w :
  let req := mkRequest method path params json_body in
  let run := Client._request self method path params json_body max_retries w in
  (0 <= max_retries)%Z ->
  throttled w req (Z.to_nat max_retries) = true ->
  length (sleeps_of (events_since w (snd run))) = Z.to_nat max_retries
  /\ total (sleeps_of (events_since w (snd run))) = (2 ^ max_retries - 1)%Z.
Proof.
  intros req run Hpos Ht. unfold run.
  rewrite (request_throttled self method path params json_body max_retries w Ht).
  fold req. simpl snd. rewrite events_since_advance, sleeps_of_backoffs.
  split.
  - rewrite length_map, length_range. reflexivity.
  - replace max_retries with (Z.of_nat (Z.to_nat max_retries)) at 1 by lia.
    rewrite total_backoff. f_equal. f_equal. lia.
Qed.

(** An instance: the default budget costs seven seconds of sleep. *)
Lemma request_total_backoff_witness :
  let w := start ∅ (always (mkResponse 429 "slow down" None)) in
  let run := Client._request (client_of "tok") "GET" "/company" None None 3 w in
  length (sleeps_of (events_since w (snd run))) = 3%nat
  /\ total (sleeps_of (events_since w (snd run))) = 7%Z.
Proof.
  exact (request_total_backoff (client_of "tok") "GET" "/company" None None 3
           (start ∅ (always (mkResponse 429 "slow down" None)))
           ltac:(lia) eq_refl).
Defined.

Lemma sleeps_of_app evs evs' :
  sleeps_of (evs ++ evs') = sleeps_of evs ++ sleeps_of evs'.
Proof.
  induction evs as [|e evs IH]; simpl; [reflexivity|].
  destruct e; simpl; rewrite IH; reflexivity.
Qed.

Lemma lifecycle_of_app evs evs' :
  lifecycle_of (evs ++ evs') = lifecycle_of evs ++ lifecycle_of evs'.
Proof.
  induction evs as [|e evs IH]; simpl; [reflexivity|].
  destruct e; simpl; rewrite IH; reflexivity.
Qed.

Lemma lifecycle_of_backoffs req attempts :
  lifecycle_of (flat_map (backoff req) attempts) = [].
Proof. induction attempts as [|a attempts IH]; simpl; [reflexivity|exact IH]. Qed.

(** What an ending adds to the counts of a run. *)
Lemma ending_counts req fin :
  In fin (endings req) ->
  sleeps_of fin = [] /\ lifecycle_of fin = [] /\ (json_calls fin <= 1)%nat
  /\ requests_of fin = repeat req (length (requests_of fin))
  /\ (fin = [] \/ length (requests_of fin) = 1%nat).
Proof.
  intros [<-|[<-|[<-|[]]]]; simpl; repeat split; auto.
Qed.

(** The run of [_request] from [w], whatever the upstream does, as the
    number of rate-limited attempts and the ending. *)
Lemma request_shape self method path params json_body max_retries w :
  let req := mkRequest method path params json_body in
  exists j fin,
    (j <= Z.to_nat max_retries)%nat
    /\ In fin (endings req)
    /\ (fin = [] -> j = Z.to_nat max_retries)
    /\ (fin <> [] -> (j < Z.to_nat max_retries)%nat)
    /\ snd (Client._request self method path params json_body max_retries w) =
         advance w (j + length (requests_of fin))
           (flat_map (backoff req) (range (Z.of_nat j)) ++ fin).
Proof.
  intros req. unfold Client._request. fold req.
  destruct (loop_shape self req (range max_retries) w)
    as (j & fin & Hj & Hin & Hnil & Hcons & Hs).
  rewrite length_range in Hj, Hnil, Hcons.
  exists j, fin. rewrite Hs, firstn_range by exact Hj.
  repeat split; assumption.
Qed.

(** The shape of every run of the core.  Whatever the upstream answers,
    and whether the run returns or raises, [_request] sends the same
    request each time and never more often than its budget allows; its
    sleeps are 1, 2, 4, ... in that order, one after each rate-limited
    attempt and none otherwise; it decodes at most one body; and it
    neither builds nor closes an HTTP client. *)
Theorem request_run_shape self method path params json_body max_retries w :
  let req := mkRequest method path params json_body in
  let run := Client._request self method path params json_body max_retries w in
  exists j fin,
    In fin (endings req)
    /\ events_since w (snd run) = flat_map (backoff req) (range (Z.of_nat j)) ++ fin
    /\ sleeps_of (events_since w (snd run)) =
         map (fun attempt => 2 ^ attempt)%Z (range (Z.of_nat j))
    /\ issued w (snd run) = repeat req (length (issued w (snd run)))
    /\ (j <= length (issued w (snd run)) <= j + 1)%nat
    /\ (length (issued w (snd run)) <= Z.to_nat max_retries)%nat
    /\ (json_calls (events_since w (snd run)) <= 1)%nat
    /\ lifecycle_of (events_since w (snd run)) = [].
Proof.
  intros req run.
  destruct (request_shape self method path params json_body max_retries w)
    as (j & fin & Hj & Hin & Hnil & Hcons & Hs).
  fold req in Hs. fold run in Hs.
  destruct (ending_counts req fin Hin) as (Hsl & Hlc & Hjs & Hrq & Hlen).
  exists j, fin. unfold issued. rewrite Hs, events_since_advance.
  rewrite sleeps_of_app, sleeps_of_backoffs, Hsl, app_nil_r.
  rewrite requests_of_app, requests_of_backoffs, length_range, Nat2Z.id.
  rewrite json_calls_app, json_calls_backoffs.
  rewrite lifecycle_of_app, lifecycle_of_backoffs, Hlc.
  rewrite Hrq at 1. rewrite <- repeat_app, length_app, !repeat_length.
  split; [exact Hin|]. split; [reflexivity|]. split; [reflexivity|].
  split; [reflexivity|]. split; [|split; [|split; [exact Hjs|reflexivity]]].
  - destruct Hlen as [->|Hlen]; simpl; lia.
  - destruct Hlen as [->|Hlen].
    + simpl. lia.
    + assert (fin <> []) as Hne by (intros ->; discriminate).
      specialize (Hcons Hne). lia.
Qed.

(** ** Further properties of the endpoint methods *)

Lemma dict_get_filter_kept (kwargs : dict) key v :
  NoDup (dict_keys kwargs) -> In (key, v) kwargs -> v <> PNone ->
  dict_get (List.filter (fun kv => is_not_None (snd kv)) kwargs) key = Some v.
Proof.
  intros Hnd Hin Hv.
  induction kwargs as [|[k' v'] kwargs IH]; [destruct Hin|].
  simpl in Hnd. inversion Hnd as [|? ? Hnotin Hnd']; subst.
  rewrite list_elem_of_In in Hnotin.
  destruct Hin as [Heq|Hin].
  - injection Heq as -> ->. simpl.
    replace (is_not_None v) with true by (destruct v; simpl; congruence).
    simpl. rewrite String.eqb_refl. reflexivity.
  - assert (Hne : k' <> key).
    { intros ->. apply Hnotin. unfold dict_keys.
      change key with (fst (key, v)). apply in_map. exact Hin. }
    apply String.eqb_neq in Hne. simpl.
    destruct (is_not_None v'); simpl; [rewrite Hne|]; exact (IH Hnd' Hin).
Qed.

Lemma filter_all_None (kwargs : dict) :
  (forall key v, In (key, v) kwargs -> v = PNone) ->
  List.filter (fun kv => is_not_None (snd kv)) kwargs = [].
Proof.
  induction kwargs as [|[k v] kwargs IH]; intros H; [reflexivity|].
  simpl. rewrite (H k v) by (left; reflexivity). simpl.
  apply IH. intros key v' Hin. apply (H key v'). right. exact Hin.
Qed.

(** What [_get] keeps.  With distinct keywords, every keyword whose value
    is not [None] is sent with that value, the empty string included;
    when every keyword is [None] the request has no query mapping, and a
    query mapping that is sent is never empty. *)
Theorem get_sends_supplied_keywords self path (kwargs : dict) w :
  NoDup (dict_keys kwargs) ->
  exists req,
    sends_only (Client._get self path kwargs) w req
    /\ (forall key v, In (key, v) kwargs -> v <> PNone -> query_value req key = Some v)
    /\ params req <> Some []
    /\ ((forall key v, In (key, v) kwargs -> v = PNone) -> params req = None).
Proof.
  intros Hnd.
  set (filtered := List.filter (fun kv => is_not_None (snd kv)) kwargs).
  exists (mkRequest "GET" path (Client.or_None filtered) None).
  split; [apply request_sends_only|]. split; [|split].
  - intros key v Hin Hv. rewrite query_value_or_None.
    exact (dict_get_filter_kept kwargs key v Hnd Hin Hv).
  - simpl. destruct filtered; discriminate.
  - intros Hall. simpl. unfold filtered. rewrite (filter_all_None kwargs Hall).
    reflexivity.
Qed.

(** An instance: [list_employees] with the empty division code sends
    [divisionCode] with the empty string. *)
Lemma get_sends_supplied_keywords_witness :
  let w := start ∅ (always (mkResponse 200 "[]" (Some (PList [])))) in
  exists req,
    sends_only (Client.list_employees (client_of "tok") (Some "")) w req
    /\ query_value req "divisionCode" = Some (PStr "").
Proof.
  destruct (get_sends_supplied_keywords (client_of "tok") "/employees"
              [("divisionCode", PStr "")]
              (start ∅ (always (mkResponse 200 "[]" (Some (PList [])))))
              (NoDup_singleton "divisionCode"))
    as (req & Hs & Hv & _).
  exists req. split; [exact Hs|].
  apply Hv; [left; reflexivity|discriminate].
Defined.

(** The bodies of the mutating endpoints.  [record_time] sends
    POST /daily-workings/timerecord/{employee_key} with the [type] first,
    then the [date] and the [time] if they are supplied and not empty,
    each with its value; [reject_request] sends PUT /requests/{id} with
    the action [reject] and then the reason if it is not empty;
    [approve_request] sends the same path with the action [approve] alone.
    None of them sends a query mapping. *)
Theorem mutating_endpoints_send_supplied_fields :
  (forall self employee_key record_type date time w,
     sends_only (Client.record_time self employee_key record_type date time) w
       (mkRequest "POST" ("/daily-workings/timerecord/" +:+ employee_key) None
          (Some (("type", PInt record_type) :: entry "date" date ++ entry "time" time))))
  /\ (forall self request_id reason w,
        sends_only (Client.reject_request self request_id reason) w
          (mkRequest "PUT" ("/requests/" +:+ request_id) None
             (Some (("action", PStr "reject") :: entry "reason" (Some reason)))))
  /\ (forall self request_id w,
        sends_only (Client.approve_request self request_id) w
          (mkRequest "PUT" ("/requests/" +:+ request_id) None
             (Some [("action", PStr "approve")]))).
Proof.
  split; [|split].
  - intros self employee_key record_type date time w.
    unfold Client.record_time, Client._post.
    destruct date as [[|c s]|], time as [[|c' s']|]; apply request_sends_only.
  - intros self request_id reason w.
    unfold Client.reject_request, Client._put.
    destruct reason as [|c s]; apply request_sends_only.
  - intros self request_id w.
    unfold Client.approve_request, Client._put. apply request_sends_only.
Qed.

(** ** Further properties of the tool adapter *)

(** Each client call behind a tool is one call of the retrying core with
    the default budget and the method of the tool's endpoint; a GET
    carries no body, a POST or PUT a body and no query mapping. *)
Lemma client_call_request t c :
  exists p q b,
    client_call t c = Client._request c (tool_method t) p q b Client.max_retries_default
    /\ (tool_method t = "GET" -> b = None)
    /\ (tool_method t <> "GET" -> q = None /\ b <> None).
Proof.
  destruct t; simpl;
    unfold Client.get_company, Client.list_administrators, Client.list_employees,
      Client.get_employee, Client.list_divisions, Client.list_working_types,
      Client.list_employee_groups, Client.get_daily_workings,
      Client.get_monthly_workings, Client.get_yearly_holidays, Client.record_time,
      Client.get_schedule_requests, Client.approve_request, Client.reject_request,
      Client.check_token, Client._get, Client._post, Client._put;
    do 3 eexists; (split; [reflexivity|]);
    (split; intros H;
       [first [reflexivity | discriminate H]
       |first [exfalso; apply H; reflexivity
              |split; [reflexivity|discriminate]]]).
Qed.

Lemma invoke_world t w c w1 :
  Server._get_client w = (Return c, w1) ->
  snd (Server.invoke t w) = closed (snd (client_call t c w1)).
Proof.
  intros H. rewrite (invoke_run t w c w1 H).
  destruct (client_call t c w1) as [[v|[status message|msg|name|]] w2]; reflexivity.
Qed.

Lemma events_since_closed_opened w token k evs :
  events_since w (closed (advance (opened w token) k evs)) =
  EvOpen (Client._client (client_of token)) :: evs ++ [EvClose].
Proof.
  unfold events_since, closed, opened, note, advance. cbn [trace].
  rewrite <- !app_assoc.
  rewrite skipn_app, skipn_all, Nat.sub_diag. reflexivity.
Qed.

(** The events of a tool run whose client call is [_request] of [req]. *)
Lemma invoke_events t w c w1 m p q b :
  Server._get_client w = (Return c, w1) ->
  client_call t c = Client._request c m p q b Client.max_retries_default ->
  let req := mkRequest m p q b in
  exists j fin,
    (j <= 3)%nat
    /\ In fin (endings req)
    /\ (fin = [] -> j = 3%nat)
    /\ (fin <> [] -> (j < 3)%nat)
    /\ events_since w (snd (Server.invoke t w)) =
         EvOpen (Client._client c)
         :: (flat_map (backoff req) (range (Z.of_nat j)) ++ fin) ++ [EvClose].
Proof.
  intros Hc Hcall req.
  rewrite (invoke_world t w c w1 Hc), Hcall.
  destruct (get_client_returns w c w1 Hc) as (token & _ & _ & -> & ->).
  destruct (request_shape (client_of token) m p q b Client.max_retries_default
              (opened w token)) as (j & fin & Hj & Hin & Hnil & Hcons & Hs).
  exists j, fin. rewrite Hs, events_since_closed_opened.
  repeat split; assumption.
Qed.

(** One client per invocation, closed on every path.  Once [_get_client]
    has returned the client, the tool run started by building one HTTP
    client, for the fixed base URL, with the bearer token of the
    environment, the JSON content type and the timeout of 30 seconds, and
    it ends by closing it, whatever the upstream does in between and
    whether the tool returns or raises; no other client is built or
    closed. *)
Theorem tool_opens_one_client_and_closes_it t w c w1 :
  Server._get_client w = (Return c, w1) ->
  exists token mid,
    environ w !! "KOT_ACCESS_TOKEN" = Some token
    /\ let cl := mkAsyncClient "https://api.kingtime.jp/v1.0"
                   [("Authorization", "Bearer " +:+ token);
                    ("Content-Type", "application/json")] 30 in
       events_since w (snd (Server.invoke t w)) = EvOpen cl :: mid ++ [EvClose]
       /\ lifecycle_of mid = []
       /\ lifecycle_of (events_since w (snd (Server.invoke t w))) = [EvOpen cl; EvClose].
Proof.
  intros Hc.
  destruct (client_call_request t c) as (p & q & b & Hcall & _).
  destruct (invoke_events t w c w1 _ p q b Hc Hcall)
    as (j & fin & _ & Hin & _ & _ & Hev).
  destruct (get_client_returns w c w1 Hc) as (token & Henv & _ & -> & ->).
  destruct (ending_counts _ fin Hin) as (_ & Hlc & _).
  exists token,
    (flat_map (backoff (mkRequest (tool_method t) p q b)) (range (Z.of_nat j)) ++ fin).
  assert (Hmid : lifecycle_of
            (flat_map (backoff (mkRequest (tool_method t) p q b)) (range (Z.of_nat j)) ++ fin)
            = []).
  { rewrite lifecycle_of_app, lifecycle_of_backoffs, Hlc. reflexivity. }
  split; [exact Henv|]. cbv zeta.
  rewrite Hev. split; [reflexivity|]. split; [exact Hmid|].
  cbn [lifecycle_of]. rewrite lifecycle_of_app, Hmid. reflexivity.
Qed.

(** An instance: [get_company] against an upstream that refuses the
    connection. *)
Lemma tool_opens_one_client_and_closes_it_witness :
  let w := start (env_with_token "tok") (fun _ _ => TransportFault "ConnectError") in
  exists token mid,
    environ w !! "KOT_ACCESS_TOKEN" = Some token
    /\ let cl := mkAsyncClient "https://api.kingtime.jp/v1.0"
                   [("Authorization", "Bearer " +:+ token);
                    ("Content-Type", "application/json")] 30 in
       events_since w (snd (Server.invoke Server.call_get_company w))
         = EvOpen cl :: mid ++ [EvClose]
       /\ lifecycle_of mid = []
       /\ lifecycle_of (events_since w (snd (Server.invoke Server.call_get_company w)))
          = [EvOpen cl; EvClose].
Proof.
  exact (tool_opens_one_client_and_closes_it Server.call_get_company
           (start (env_with_token "tok") (fun _ _ => TransportFault "ConnectError"))
           (client_of "tok")
           (opened (start (env_with_token "tok")
                      (fun _ _ => TransportFault "ConnectError")) "tok")
           eq_refl).
Defined.











Lemma reject_request_call c request_id reason :
  Client.reject_request c request_id reason =
  Client._request c "PUT" ("/requests/" +:+ request_id) None
    (Some (("action", PStr "reject") :: entry "reason" (Some reason)))
    Client.max_retries_default.
Proof. destruct reason; reflexivity. Qed.

(** The [reject_request] tool.  Once [_get_client] has returned the
    client, when the response that ends the client's loop has status 204
    the tool returns the fixed confirmation "棄却しました"; when it is
    another success response, the tool returns the decoded body
    pretty-printed as JSON text if that value is truthy, and the same
    confirmation if it is falsy. *)
Theorem reject_request_confirmation_or_json request_id reason w c w1 k resp :
  let req := mkRequest "PUT" ("/requests/" +:+ request_id) None
               (Some (("action", PStr "reject") :: entry "reason" (Some reason))) in
  let run := Server.reject_request request_id reason w in
  Server._get_client w = (Return c, w1) ->
  (k < 3)%nat ->
  throttled w req k = true ->
  upstream w (sent w + k) req = Answer resp ->
  (status_code resp < 400)%Z ->
  (status_code resp = 204%Z -> fst run = Return "棄却しました")
  /\ (status_code resp <> 204%Z ->
      forall v, json resp = Some v ->
        fst run = Return (if truthy v then Server._fmt v else "棄却しました")).
Proof.
  intros req run Hc Hk Ht Hup H400.
  assert (H429 : status_code resp <> 429%Z) by lia.
  pose proof (invoke_run (Server.call_reject_request request_id reason) w c w1 Hc)
    as Hrun.
  destruct (get_client_returns w c w1 Hc) as (token & _ & _ & -> & ->).
  cbn [Server.invoke client_call rendered] in Hrun.
  rewrite reject_request_call in Hrun.
  rewrite (request_after_throttling (client_of token) "PUT"
             ("/requests/" +:+ request_id) None
             (Some (("action", PStr "reject") :: entry "reason" (Some reason)))
             Client.max_retries_default (opened w token) k resp)
    in Hrun; [|unfold Client.max_retries_default; lia|exact Ht|exact Hup|exact H429].
  cbv zeta in Hrun.
  replace (status_code resp >=? 400)%Z with false in Hrun
    by (symmetry; rewrite Z.geb_leb; apply Z.leb_gt; exact H400).
  unfold run. rewrite Hrun. split.
  - intros H204. rewrite H204. reflexivity.
  - intros H204 v Hv. apply Z.eqb_neq in H204. rewrite H204.
    unfold decoded. rewrite Hv. reflexivity.
Qed.

(** Two instances: the endpoint answers 204 to a rejection with a reason,
    and it answers 200 with the body [[]]. *)
Lemma reject_request_confirmation_or_json_witness :
  fst (Server.reject_request "R1" "late"
         (start (env_with_token "tok") (always (mkResponse 204 "" None))))
    = Return "棄却しました"
  /\ fst (Server.reject_request "R1" ""
            (start (env_with_token "tok")
               (always (mkResponse 200 "[]" (Some (PList []))))))
    = Return "棄却しました".
Proof.
  split.
  - exact (proj1 (reject_request_confirmation_or_json "R1" "late"
             (start (env_with_token "tok") (always (mkResponse 204 "" None)))
             (client_of "tok")
             (opened (start (env_with_token "tok") (always (mkResponse 204 "" None)))
                "tok")
             0 (mkResponse 204 "" None)
             eq_refl ltac:(lia) eq_refl eq_refl ltac:(simpl; lia))
             eq_refl).
  - exact (proj2 (reject_request_confirmation_or_json "R1" ""
             (start (env_with_token "tok")
                (always (mkResponse 200 "[]" (Some (PList [])))))
             (client_of "tok")
             (opened (start (env_with_token "tok")
                        (always (mkResponse 200 "[]" (Some (PList []))))) "tok")
             0 (mkResponse 200 "[]" (Some (PList [])))
             eq_refl ltac:(lia) eq_refl eq_refl ltac:(simpl; lia))
             ltac:(simpl; lia) (PList []) eq_refl).
Defined.

(** The token in the path.  Once [_get_client] has returned the client,
    the [check_token] tool sends GET /tokens/{token}/available, where the
    token is the one the client holds, the value of the environment
    variable, with no query mapping and no body, at least once and at most
    three times, and nothing else. *)
Theorem check_token_sends_token_in_path w c w1 :
  Server._get_client w = (Return c, w1) ->
  environ w !! "KOT_ACCESS_TOKEN" = Some (Client._token c)
  /\ exists k,
       (1 <= k <= 3)%nat
       /\ issued w (snd (Server.check_token w)) =
          repeat (mkRequest "GET" ("/tokens/" +:+ Client._token c +:+ "/available")
                    None None) k.
Proof.
  intros Hc.
  destruct (invoke_events Server.call_check_token w c w1 "GET"
              ("/tokens/" +:+ Client._token c +:+ "/available") None None Hc eq_refl)
    as (j & fin & Hj & Hin & Hnil & Hcons & Hev).
  destruct (get_client_returns w c w1 Hc) as (token & Henv & _ & -> & ->).
  split; [exact Henv|].
  destruct (ending_counts _ fin Hin) as (_ & _ & _ & Hrq & Hlen).
  exists (j + length (requests_of fin))%nat. split.
  - destruct Hlen as [->|Hlen].
    + rewrite (Hnil eq_refl). simpl. lia.
    + assert (fin <> []) as Hf by (intros ->; discriminate).
      specialize (Hcons Hf). lia.
  - change (Server.check_token w) with (Server.invoke Server.call_check_token w).
    unfold issued. rewrite Hev. cbn [requests_of].
    rewrite !requests_of_app, requests_of_backoffs, length_range, Nat2Z.id.
    cbn [requests_of]. rewrite app_nil_r. rewrite Hrq at 1.
    rewrite <- repeat_app. reflexivity.
Qed.

(** An instance: the token [tok] against an upstream that answers 200. *)
Lemma check_token_sends_token_in_path_witness :
  let w := start (env_with_token "tok")
             (always (mkResponse 200 "[1]" (Some (PList [PInt 1])))) in
  environ w !! "KOT_ACCESS_TOKEN" = Some "tok"
  /\ exists k,
       (1 <= k <= 3)%nat
       /\ issued w (snd (Server.check_token w)) =
          repeat (mkRequest "GET" "/tokens/tok/available" None None) k.
Proof.
  exact (check_token_sends_token_in_path
           (start (env_with_token "tok")
              (always (mkResponse 200 "[1]" (Some (PList [PInt 1])))))
           (client_of "tok")
           (opened (start (env_with_token "tok")
                      (always (mkResponse 200 "[1]" (Some (PList [PInt 1]))))) "tok")
           eq_refl).
Defined.





(** A token that is not ASCII.  When the token of the environment holds a
    character outside ASCII, the HTTP library cannot encode the
    Authorization header: every tool raises [UnicodeEncodeError] from
    [_get_client], outside its [try], with the world unchanged, so that no
    client is built or closed, no request is sent and no text is
    returned. *)
Theorem tool_raises_on_token_outside_ascii t w token :
  environ w !! "KOT_ACCESS_TOKEN" = Some token ->
  token <> "" ->
  ascii_only token = false ->
  Server.invoke t w = (Raise (OtherError "UnicodeEncodeError"), w)
  /\ forall text, fst (Server.invoke t w) <> Return text.
Proof.
  intros Henv Hne Hascii.
  rewrite (invoke_without_client t w _ _ (get_client_not_ascii w token Henv Hne Hascii)).
  split; [reflexivity|]. intros text. discriminate.
Qed.

(** An instance: a Japanese token. *)
Lemma tool_raises_on_token_outside_ascii_witness :
  let w := start (env_with_token "トークン") (always (mkResponse 200 "[]" (Some (PList [])))) in
  Server.invoke Server.call_get_company w = (Raise (OtherError "UnicodeEncodeError"), w)
  /\ forall text, fst (Server.invoke Server.call_get_company w) <> Return text.
Proof.
  exact (tool_raises_on_token_outside_ascii Server.call_get_company
           (start (env_with_token "トークン")
              (always (mkResponse 200 "[]" (Some (PList [])))))
           "トークン" eq_refl ltac:(discriminate) eq_refl).
Defined.

(** ** Properties of the rendering *)

Lemma escape_char_plain c : plain_char c = true -> escape_char c = String c "".
Proof.
  unfold plain_char, escape_char. cbv zeta. intros H.
  apply andb_prop in H as [H H92]. apply andb_prop in H as [H32 H34].
  apply negb_true_iff in H32, H34, H92.
  apply N.ltb_ge in H32.
  rewrite H34, H92.
  replace (N_of_ascii c =? 8)%N with false by (symmetry; apply N.eqb_neq; lia).
  replace (N_of_ascii c =? 12)%N with false by (symmetry; apply N.eqb_neq; lia).
  replace (N_of_ascii c =? 10)%N with false by (symmetry; apply N.eqb_neq; lia).
  replace (N_of_ascii c =? 13)%N with false by (symmetry; apply N.eqb_neq; lia).
  replace (N_of_ascii c =? 9)%N with false by (symmetry; apply N.eqb_neq; lia).
  replace (N_of_ascii c <? 32)%N with false by (symmetry; apply N.ltb_ge; exact H32).
  reflexivity.
Qed.

Lemma escape_chars_plain s : plain s = true -> escape_chars s = s.
Proof.
  induction s as [|c s IH]; simpl; [reflexivity|].
  intros H. apply andb_prop in H as [Hc Hs].
  rewrite (escape_char_plain c Hc), (IH Hs). reflexivity.
Qed.

Lemma escape_char_one_line c : multiline (escape_char c) = false.
Proof.
  destruct c as [[] [] [] [] [] [] [] []]; vm_compute; reflexivity.
Qed.

Lemma escape_chars_one_line s : multiline (escape_chars s) = false.
Proof.
  induction s as [|c s IH]; simpl; [reflexivity|].
  rewrite multiline_append, escape_char_one_line, IH. reflexivity.
Qed.

(** Text is rendered as it is.  A string that holds no control character,
    quote or backslash is rendered by [_fmt] as that same text between two
    quotes: text outside ASCII is not escaped. *)
Theorem fmt_keeps_plain_text s :
  plain s = true ->
  Server._fmt (PStr s) = DQUOTE +:+ s +:+ DQUOTE.
Proof.
  intros H. unfold Server._fmt, json_dumps. simpl dumps_at. unfold encode_basestring.
  rewrite (escape_chars_plain s H). reflexivity.
Qed.

(** An instance: a Japanese company name. *)
Lemma fmt_keeps_plain_text_witness :
  Server._fmt (PStr "株式会社サンプル") = DQUOTE +:+ "株式会社サンプル" +:+ DQUOTE.
Proof. exact (fmt_keeps_plain_text "株式会社サンプル" eq_refl). Defined.

(** A string is rendered on one line.  Whatever a string holds, line
    breaks included, [_fmt] renders it as a single line. *)
Theorem fmt_string_on_one_line s : multiline (Server._fmt (PStr s)) = false.
Proof.
  unfold Server._fmt, json_dumps. simpl dumps_at. unfold encode_basestring.
  rewrite !multiline_append, escape_chars_one_line. reflexivity.
Qed.
